(** * CrawlStudio: the depth-limited and the recursive crawl controllers

    A shallow embedding of [depth_crawler_demo.py] (class
    [DepthLimitedCrawler]) and of [recursive_crawling_demo.py] (class
    [RecursiveCrawler]), and the properties of the frontier controller,
    the link extractor and the result summary.

    Conventions.
    - Python [int] is [Z]; Python [str] is [string], a character being a
      code point below 256.
    - Python [set] of strings is [gset string]; where the code iterates over
      a set, the iteration order is a parameter ([SetOrder]).
    - Python [dict] keyed by depth is [gmap Z _].
    - The backend is an interface: a state and a [crawl] function that
      either returns a document or raises. *)

From Stdlib Require Import ZArith List Ascii String QArith DecimalString.
From stdpp Require Import gmap strings list fin_maps sorting.

Local Open Scope string_scope.
Local Open Scope list_scope.
Local Open Scope Z_scope.

(** ** Python string operations used by the two crawlers *)

Module Py.

(** [s.startswith(p)] *)
Fixpoint startswith (p s : string) : bool :=
  match p, s with
  | EmptyString, _ => true
  | String a p', String b s' => if Ascii.eqb a b then startswith p' s' else false
  | String _ _, EmptyString => false
  end.

(** [s[n:]] for [n >= 0] *)
Fixpoint drop (n : nat) (s : string) : string :=
  match n, s with
  | O, _ => s
  | S n', String _ s' => drop n' s'
  | S _, EmptyString => EmptyString
  end.

(** [s[:n]] for [n >= 0] *)
Fixpoint take (n : nat) (s : string) : string :=
  match n, s with
  | S n', String c s' => String c (take n' s')
  | _, _ => EmptyString
  end.

(** [s.split(sep)] for a one-character separator: [k] separators give
    [k + 1] pieces, the empty string gives one empty piece. *)
Fixpoint split (sep : ascii) (s : string) : list string :=
  match s with
  | EmptyString => [EmptyString]
  | String c s' =>
      if Ascii.eqb c sep then EmptyString :: split sep s'
      else match split sep s' with
           | piece :: pieces => String c piece :: pieces
           | [] => [String c EmptyString]
           end
  end.

(** Removal of the leading characters that satisfy [p]. *)
Fixpoint lstrip_with (p : ascii -> bool) (s : string) : string :=
  match s with
  | String c s' => if p c then lstrip_with p s' else s
  | EmptyString => EmptyString
  end.

(** Removal of the trailing characters that satisfy [p]. *)
Fixpoint rstrip_with (p : ascii -> bool) (s : string) : string :=
  match s with
  | String c s' =>
      match rstrip_with p s' with
      | EmptyString => if p c then EmptyString else String c EmptyString
      | t => String c t
      end
  | EmptyString => EmptyString
  end.

Definition strip_with (p : ascii -> bool) (s : string) : string :=
  rstrip_with p (lstrip_with p s).

Definition code (c : ascii) : nat := nat_of_ascii c.

Definition between (lo hi : nat) (c : ascii) : bool :=
  (lo <=? code c)%nat && (code c <=? hi)%nat.

(** [c.isspace()] on code points below 256: TAB..CR, FS..US, space, NEL
    and the no-break space. *)
Definition isspace (c : ascii) : bool :=
  between 9 13 c || between 28 32 c || (code c =? 133)%nat || (code c =? 160)%nat.

(** [s.strip()] *)
Definition strip (s : string) : string := strip_with isspace s.

(** [s.strip('/')] *)
Definition strip_char (x : ascii) (s : string) : string :=
  strip_with (Ascii.eqb x) s.

(** A character with the Unicode digit property, below 256: the decimal
    digits and the superscripts two, three and one. *)
Definition isdigit_char (c : ascii) : bool :=
  between 48 57 c || (code c =? 178)%nat || (code c =? 179)%nat || (code c =? 185)%nat.

Fixpoint all_chars (p : ascii -> bool) (s : string) : bool :=
  match s with
  | EmptyString => true
  | String c s' => p c && all_chars p s'
  end.

(** [s.isdigit()]: at least one character, and all of them digits. *)
Definition isdigit (s : string) : bool :=
  match s with
  | EmptyString => false
  | _ => all_chars isdigit_char s
  end.

(** [len(s)] *)
Definition len (s : string) : Z := Z.of_nat (String.length s).

(** The index-1 element of a list, [""] when there is none (the callers
    test the length first). *)
Definition item1 (l : list string) : string := nth 1 l EmptyString.

End Py.

(** ** The two regular expressions of [extract_guardian_links] *)

Module Re.

(** The longest prefix of characters in the class [p], and the rest: a
    greedy [[...]+] whose successor in the pattern is a character outside
    the class (or the end of the pattern) can only match that prefix. *)
Fixpoint span (p : ascii -> bool) (s : string) : string * string :=
  match s with
  | String c s' =>
      if p c then let '(run, rest) := span p s' in (String c run, rest)
      else (EmptyString, s)
  | EmptyString => (EmptyString, EmptyString)
  end.

(** A literal of the pattern: the rest of the subject after it. *)
Fixpoint literal (lit s : string) : option string :=
  match lit, s with
  | EmptyString, _ => Some s
  | String a lit', String b s' => if Ascii.eqb a b then literal lit' s' else None
  | String _ _, EmptyString => None
  end.

Definition is_alpha (c : ascii) : bool := Py.between 97 122 c || Py.between 65 90 c.

(** [\d] on code points below 256 *)
Definition is_d (c : ascii) : bool := Py.between 48 57 c.

(** [[a-zA-Z-]] *)
Definition cls_section (c : ascii) : bool := is_alpha c || Ascii.eqb c "-".

(** [[a-zA-Z0-9/-]] *)
Definition cls_path (c : ascii) : bool :=
  is_alpha c || is_d c || Ascii.eqb c "/" || Ascii.eqb c "-".

(** [[^\]]] and [[^\)]] *)
Definition not_char (x c : ascii) : bool := negb (Ascii.eqb c x).

Definition guardian : string := "https://www.theguardian.com/".

(** [\d{4}]: exactly four digits. *)
Definition four_digits (s : string) : option (string * string) :=
  match s with
  | String a (String b (String c (String d rest))) =>
      if is_d a && is_d b && is_d c && is_d d
      then Some (String a (String b (String c (String d EmptyString))), rest)
      else None
  | _ => None
  end.

(** A match of
    [https://www\.theguardian\.com/[a-zA-Z-]+/\d{4}/[a-zA-Z0-9/-]+]
    at the start of [s]: the matched text and its length. *)
Definition match_article (s : string) : option (string * nat) :=
  match literal guardian s with
  | None => None
  | Some s1 =>
      let '(sec, s2) := span cls_section s1 in
      match sec, literal "/" s2 with
      | String _ _, Some s3 =>
          match four_digits s3 with
          | Some (year, s4) =>
              match literal "/" s4 with
              | Some s5 =>
                  let '(tail, _) := span cls_path s5 in
                  match tail with
                  | String _ _ =>
                      let m := guardian +:+ sec +:+ "/" +:+ year +:+ "/" +:+ tail in
                      Some (m, String.length m)
                  | EmptyString => None
                  end
              | None => None
              end
          | None => None
          end
      | _, _ => None
      end
  end.

(** A match of
    [\[([^\]]+)\]\((https://www\.theguardian\.com/[^\)]+)\)]
    at the start of [s]: the two groups and the length of the match. *)
Definition match_mdlink (s : string) : option ((string * string) * nat) :=
  match literal "[" s with
  | None => None
  | Some s1 =>
      let '(text, s2) := span (not_char "]") s1 in
      match text, literal "](" s2 with
      | String _ _, Some s3 =>
          match literal guardian s3 with
          | Some s4 =>
              let '(rest, s5) := span (not_char ")") s4 in
              match rest, literal ")" s5 with
              | String _ _, Some _ =>
                  let url := guardian +:+ rest in
                  Some ((text, url), (String.length text + String.length url + 4)%nat)
              | _, _ => None
              end
          | None => None
          end
      | _, _ => None
      end
  end.

(** [re.findall]: the matches from left to right, without overlap. After a
    match of length [n] the scan resumes [n] characters further ([skip]
    counts the characters of the match still to pass); where nothing
    matches it moves one character on. Both patterns match at least one
    character, so nothing matches at the end of the subject. *)
Fixpoint findall_from {A} (m : string -> option (A * nat)) (skip : nat)
    (s : string) : list A :=
  match s with
  | EmptyString => []
  | String _ s' =>
      match skip with
      | S k => findall_from m k s'
      | O =>
          match m s with
          | Some (x, n) => x :: findall_from m (Nat.pred n) s'
          | None => findall_from m O s'
          end
      end
  end.

Definition findall {A} (m : string -> option (A * nat)) (s : string) : list A :=
  findall_from m O s.

End Re.

(** ** [urllib.parse.urlparse(link).path] *)

Module Urllib.

Fixpoint remove_chars (p : ascii -> bool) (s : string) : string :=
  match s with
  | String c s' => if p c then remove_chars p s' else String c (remove_chars p s')
  | EmptyString => EmptyString
  end.

(** The part of [s] before the first [x] (all of [s] when there is none). *)
Fixpoint before (x : ascii) (s : string) : string :=
  match s with
  | String c s' => if Ascii.eqb c x then EmptyString else String c (before x s')
  | EmptyString => EmptyString
  end.

(** The index of the last [x] in [s], counted from [i]. *)
Fixpoint rfind_from (x : ascii) (i : nat) (s : string) : option nat :=
  match s with
  | String c s' =>
      match rfind_from x (S i) s' with
      | Some j => Some j
      | None => if Ascii.eqb c x then Some i else None
      end
  | EmptyString => None
  end.

(** [_splitparams(url)[0]]: the semicolon that starts the parameters is
    looked for after the last slash. *)
Definition splitparams (s : string) : string :=
  match rfind_from "/" O s with
  | Some i => Py.take i s +:+ before ";" (Py.drop i s)
  | None => before ";" s
  end.

Definition unsafe_char (c : ascii) : bool :=
  (Py.code c =? 9)%nat || (Py.code c =? 10)%nat || (Py.code c =? 13)%nat.

(** The [path] of a link that starts with [https://www.theguardian.com/],
    as both patterns' links do: tabs and line breaks are removed, the scheme
    and the network location (27 characters, up to the first slash after
    [//]) are split off, then the fragment, the query and the parameters of
    the last segment. For such a link [urlparse] raises nothing. *)
Definition path (link : string) : string :=
  let url := Py.drop 27 (remove_chars unsafe_char link) in
  splitparams (before "?" (before "#" url)).

End Urllib.

(** ** Iteration over a Python set

    [for link in links] and [list(set(...))] enumerate a set of strings in
    the order of the hash table, which depends on the hash seed of the
    process and on the insertions: every element once, in some order.
    [set_iter l] is the enumeration of the set filled with the elements of
    [l], inserted in that sequence. *)

Class SetOrder := {
  set_iter : list string -> list string;
  set_iter_NoDup : forall l, NoDup (set_iter l);
  set_iter_elem : forall l x, x ∈ set_iter l <-> x ∈ l
}.

(** The enumeration in the order of first insertion. *)
Definition first_seen (l : list string) : list string :=
  reverse (remove_dups (reverse l)).

(** ** The link extractors *)

Module Extract.

(** [len(path_parts) >= 5 and path_parts[1].isdigit() and
    len(path_parts[1]) == 4] on
    [path_parts = urlparse(link).path.strip('/').split('/')] *)
Definition is_article (link : string) : bool :=
  let path_parts := Py.split "/" (Py.strip_char "/" (Urllib.path link)) in
  (5 <=? Z.of_nat (length path_parts))
  && Py.isdigit (Py.item1 path_parts)
  && (Py.len (Py.item1 path_parts) =? 4).

(** The elements that [links.update] / [links.add] put into [links], in
    the sequence of the insertions. *)
Definition depth_matches (content : string) : list string :=
  Re.findall Re.match_article content.

Definition recursive_matches (content : string) : list string :=
  Re.findall Re.match_article content
  ++ map snd (Re.findall Re.match_mdlink content).

Section WithSetOrder.
Context `{SetOrder}.

(** The article links, in the order the loop over the set [links] appends
    them to [article_links]; then [list(set(article_links))]. *)
Definition unique_articles (matches : list string) : list string :=
  set_iter (List.filter is_article (set_iter matches)).

(** [DepthLimitedCrawler.extract_guardian_links(content)] *)
Definition depth_extract_guardian_links (content : string) : list string :=
  unique_articles (depth_matches content).

(** [RecursiveCrawler.extract_guardian_links(content, base_url)]; the
    body does not read [base_url]. *)
Definition recursive_extract_guardian_links (content base_url : string)
    : list string :=
  firstn 5 (unique_articles (recursive_matches content)).

End WithSetOrder.

End Extract.

(** ** The fetch backend, page results and observable events *)

(** What [await self.backend.crawl(url, format="markdown")] does, together
    with the clock read around it: it returns a result whose [markdown] is
    a string or [None], after [elapsed] seconds (already rounded to two
    decimals), or it raises an exception with message [str(e)]. *)
Inductive fetch_outcome : Type :=
| Fetched (markdown : option string) (elapsed : Q)
| Raised (message : string).

(** A backend object: its state and its [crawl] method. The answer to a
    URL may depend on the calls made before. *)
Class CrawlBackend (B : Type) := backend_crawl : B -> string -> B * fetch_outcome.

(** The dictionaries [page_result] of the depth-limited crawler; the key
    ["error"] is present in a failed result only. *)
Record page_result : Type := PageResult {
  r_url : string;
  r_depth : Z;
  r_title : string;
  r_content_length : Z;
  r_duration : Q;
  r_success : bool;
  r_error : option string
}.

(** What the controller does to the outside world, in order. *)
Inductive event : Type :=
| EvCrawl (url : string)
| EvSleep (seconds : Q).

(** [result.markdown or ""] *)
Definition markdown_or_empty (markdown : option string) : string :=
  match markdown with
  | Some md => md
  | None => EmptyString
  end.

Definition newline : ascii := ascii_of_nat 10.

(** The title: ["Unknown"], or, when [result.markdown] is a non-empty
    string, the first line that starts with ["# "], without these two
    characters, stripped and cut to [cut] characters. *)
Definition extract_title (cut : nat) (markdown : option string) : string :=
  match markdown with
  | Some (String _ _ as md) =>
      match List.find (Py.startswith "# ") (Py.split newline md) with
      | Some line => Py.take cut (Py.strip (Py.drop 2 line))
      | None => "Unknown"
      end
  | _ => "Unknown"
  end.

(** [len(result.markdown) if result.markdown else 0] *)
Definition content_length_of (markdown : option string) : Z :=
  match markdown with
  | Some md => Py.len md
  | None => 0
  end.

(** ** [DepthLimitedCrawler] *)

Module Depth.

(** The arguments of [__init__] besides the backend; it stores them and
    checks nothing. *)
Record config : Type := Config {
  max_depth : Z;
  max_pages_per_level : Z
}.

(** The object ([backend], [crawled_urls], [depth_results]), the local
    variables of [crawl_depth_limited] ([all_results], and per level
    [next_level], [level_results], [pages_at_level]) and the events so
    far. *)
Record state (B : Type) : Type := State {
  backend : B;
  crawled_urls : gset string;
  depth_results : gmap Z (list page_result);
  all_results : list page_result;
  next_level : list (string * Z);
  level_results : list page_result;
  pages_at_level : Z;
  trace : list event
}.
Arguments State {B}.
Arguments backend {B}.
Arguments crawled_urls {B}.
Arguments depth_results {B}.
Arguments all_results {B}.
Arguments next_level {B}.
Arguments level_results {B}.
Arguments pages_at_level {B}.
Arguments trace {B}.

(** [DepthLimitedCrawler(backend, ...)] followed by the first lines of
    [crawl_depth_limited]: nothing crawled, no results. *)
Definition init {B} (b : B) : state B :=
  State b ∅ ∅ [] [] [] 0 [].

(** The start of a run on an object that may have run before:
    [all_results = []], no event yet. *)
Definition begin_run {B} (st : state B) : state B :=
  State (backend st) (crawled_urls st) (depth_results st) [] [] [] 0 [].

Definition success_result (url : string) (depth : Z) (markdown : option string)
    (elapsed : Q) : page_result :=
  PageResult url depth (extract_title 80 markdown) (content_length_of markdown)
    elapsed true None.

Definition failed_result (url : string) (depth : Z) (message : string) : page_result :=
  PageResult url depth "Failed" 0 0%Q false (Some message).

(** The half second of [await asyncio.sleep(0.5)]. *)
Definition pause : Q := (1 # 2)%Q.

Section Controller.
Context {B : Type} `{CrawlBackend B}.
(** [self.extract_guardian_links], a method of the object. *)
Variable extract_links : string -> list string.
Variable cfg : config.

(** The items that the loop over [new_links[:5]] appends to [next_level]:
    the links that are not in [crawled_urls], each with [depth + 1]. *)
Definition new_items (crawled : gset string) (depth : Z) (new_links : list string)
    : list (string * Z) :=
  map (fun link => (link, depth + 1))
      (List.filter (fun link => negb (bool_decide (link ∈ crawled))) (firstn 5 new_links)).

(** The [try] statement for one URL. After a fetch that returns: the URL
    is added to [crawled_urls], [pages_at_level] is incremented, the result
    is appended, links are extracted when [depth < max_depth], and the
    controller sleeps. After a fetch that raises: the failed result is
    appended, and nothing else changes. *)
Definition attempt (depth : Z) (url : string) (st : state B) : state B :=
  let '(b, outcome) := backend_crawl (backend st) url in
  match outcome with
  | Fetched markdown elapsed =>
      let crawled := crawled_urls st ∪ {[url]} in
      let result := success_result url depth markdown elapsed in
      let next :=
        if depth <? max_depth cfg
        then next_level st
             ++ new_items crawled depth (extract_links (markdown_or_empty markdown))
        else next_level st in
      State b crawled (depth_results st) (all_results st ++ [result]) next
        (level_results st ++ [result]) (pages_at_level st + 1)
        (trace st ++ [EvCrawl url; EvSleep pause])
  | Raised message =>
      let result := failed_result url depth message in
      State b (crawled_urls st) (depth_results st) (all_results st ++ [result])
        (next_level st) (level_results st ++ [result]) (pages_at_level st)
        (trace st ++ [EvCrawl url])
  end.

(** [for url, url_depth in current_level: ...] with its [continue] and its
    [break]. *)
Fixpoint for_level (depth : Z) (items : list (string * Z)) (st : state B) : state B :=
  match items with
  | [] => st
  | (url, url_depth) :: rest =>
      if bool_decide (url ∈ crawled_urls st) then for_level depth rest st
      else if max_pages_per_level cfg <=? pages_at_level st then st
      else for_level depth rest (attempt depth url st)
  end.

(** The top of the body of [while]: the level's local variables. *)
Definition enter_level (st : state B) : state B :=
  State (backend st) (crawled_urls st) (depth_results st) (all_results st)
    [] [] 0 (trace st).

(** [self.depth_results[depth] = level_results] *)
Definition leave_level (depth : Z) (st : state B) : state B :=
  State (backend st) (crawled_urls st)
    (<[depth := level_results st]> (depth_results st)) (all_results st)
    (next_level st) (level_results st) (pages_at_level st) (trace st).

(** [while current_level: ...]. A level that is processed uses one unit of
    [fuel]; [None] is a loop that has not ended within [fuel] levels. *)
Fixpoint while_levels (fuel : nat) (current_level : list (string * Z))
    (st : state B) : option (state B) :=
  match current_level with
  | [] => Some st
  | (_, depth) :: _ =>
      if max_depth cfg <? depth then Some st
      else
        match fuel with
        | O => None
        | S fuel' =>
            let st' := for_level depth current_level (enter_level st) in
            while_levels fuel' (next_level st') (leave_level depth st')
        end
  end.

(** The levels of a run have the depths [0], ..., [max_depth]. *)
Definition enough_fuel : nat := Z.to_nat (max_depth cfg + 1).

(** The loop of [crawl_depth_limited(start_url)], on the object [st]. *)
Definition run (st : state B) (start_url : string) : option (state B) :=
  while_levels enough_fuel [(start_url, 0)] (begin_run st).

End Controller.

(** The dictionary that [crawl_depth_limited] returns. *)
Record summary : Type := Summary {
  max_depth_reached : Z;
  total_pages : Z;
  successful_pages : Z;
  depth_breakdown : gmap Z Z;
  results_by_depth : gmap Z (list page_result);
  summary_results : list page_result
}.

(** [max(d.keys()) if d else 0] *)
Definition max_key {A} (d : gmap Z A) : Z :=
  match elements (dom d) with
  | [] => 0
  | k :: ks => foldr Z.max k ks
  end.

Definition summarize {B} (st : state B) : summary :=
  Summary (max_key (depth_results st))
    (Z.of_nat (length (all_results st)))
    (Z.of_nat (length (List.filter r_success (all_results st))))
    ((fun results => Z.of_nat (length results)) <$> depth_results st)
    (depth_results st)
    (all_results st).

(** [crawl_depth_limited(start_url)] on a new object: the summary, the
    object after the run, and the events. *)
Definition crawl_depth_limited {B} `{CrawlBackend B}
    (extract_links : string -> list string) (cfg : config) (b : B)
    (start_url : string) : option (summary * state B) :=
  match run extract_links cfg (init b) start_url with
  | Some st => Some (summarize st, st)
  | None => None
  end.

End Depth.

(** ** [RecursiveCrawler] *)

Module Recursive.

(** The arguments of [__init__] besides the backend. *)
Record config : Type := Config {
  max_pages : Z;
  delay : Q
}.

(** The dictionaries [page_result] of the recursive crawler (no depth). *)
Record page_result : Type := PageResult {
  r_url : string;
  r_title : string;
  r_content_length : Z;
  r_duration : Q;
  r_success : bool;
  r_error : option string
}.

(** The object ([backend], [crawled_urls]), the local variables [queue]
    and [crawl_results] of [crawl_recursive], and the events so far. *)
Record state (B : Type) : Type := State {
  backend : B;
  crawled_urls : gset string;
  queue : list string;
  crawl_results : list page_result;
  trace : list event
}.
Arguments State {B}.
Arguments backend {B}.
Arguments crawled_urls {B}.
Arguments queue {B}.
Arguments crawl_results {B}.
Arguments trace {B}.

(** A new object at the start of [crawl_recursive(start_url)]. *)
Definition init {B} (b : B) (start_url : string) : state B :=
  State b ∅ [start_url] [] [].

Definition success_result (url : string) (markdown : option string) (elapsed : Q)
    : page_result :=
  PageResult url (extract_title 100 markdown) (content_length_of markdown)
    elapsed true None.

Definition failed_result (url : string) (message : string) : page_result :=
  PageResult url "Failed" 0 0%Q false (Some message).

(** [len(self.crawled_urls) < self.max_pages] *)
Definition below_max_pages (cfg : config) (crawled : gset string) : bool :=
  Z.of_nat (size crawled) <? max_pages cfg.

(** One pass of [for link in new_links]: the link is appended unless it
    is in [crawled_urls] or already in [queue]. *)
Definition enqueue (crawled : gset string) (queue : list string) (link : string)
    : list string :=
  if bool_decide (link ∈ crawled) then queue
  else if bool_decide (link ∈ queue) then queue
  else queue ++ [link].

(** [if self.delay > 0: await asyncio.sleep(self.delay)] *)
Definition sleep_events (cfg : config) : list event :=
  if Qle_bool (delay cfg) 0 then [] else [EvSleep (delay cfg)].

Section Controller.
Context {B : Type} `{CrawlBackend B}.
(** [self.extract_guardian_links], with its two arguments. *)
Variable extract_links : string -> string -> list string.
Variable cfg : config.

(** The [try] statement for [current_url], already popped from the queue. *)
Definition attempt (current_url : string) (st : state B) : state B :=
  let '(b, outcome) := backend_crawl (backend st) current_url in
  match outcome with
  | Fetched markdown elapsed =>
      let crawled := crawled_urls st ∪ {[current_url]} in
      let result := success_result current_url markdown elapsed in
      let queue' :=
        if below_max_pages cfg crawled
        then fold_left (enqueue crawled)
               (extract_links (markdown_or_empty markdown) current_url) (queue st)
        else queue st in
      State b crawled queue' (crawl_results st ++ [result])
        (trace st ++ EvCrawl current_url :: sleep_events cfg)
  | Raised message =>
      State b (crawled_urls st) (queue st)
        (crawl_results st ++ [failed_result current_url message])
        (trace st ++ [EvCrawl current_url])
  end.

(** One iteration of [while queue and len(self.crawled_urls) <
    self.max_pages]; [None] when the condition is false. *)
Definition iteration (st : state B) : option (state B) :=
  match queue st with
  | [] => None
  | current_url :: rest =>
      if below_max_pages cfg (crawled_urls st) then
        let st' := State (backend st) (crawled_urls st) rest (crawl_results st)
                     (trace st) in
        if bool_decide (current_url ∈ crawled_urls st) then Some st'
        else Some (attempt current_url st')
      else None
  end.

(** The loop; [None] is a loop that has not ended within [fuel]
    iterations. *)
Fixpoint while_queue (fuel : nat) (st : state B) : option (state B) :=
  match iteration st with
  | None => Some st
  | Some st' =>
      match fuel with
      | O => None
      | S fuel' => while_queue fuel' st'
      end
  end.

(** An iteration that adds a page lets at most five links into the queue
    and takes one out: six units of fuel per page still allowed, and one
    per queued URL, are enough. *)
Definition enough_fuel (st : state B) : nat :=
  (6 * Z.to_nat (max_pages cfg - Z.of_nat (size (crawled_urls st)))
   + length (queue st))%nat.

End Controller.

(** The loop of [crawl_recursive(start_url)] on a new object. *)
Definition crawl_recursive {B} `{CrawlBackend B}
    (extract_links : string -> string -> list string) (cfg : config) (b : B)
    (start_url : string) : option (state B) :=
  while_queue extract_links cfg (enough_fuel cfg (init b start_url))
    (init b start_url).

(** The events that the dispatch behind a result leaves in the trace. *)
Definition events_of (cfg : config) (r : page_result) : list event :=
  EvCrawl (r_url r) :: (if r_success r then sleep_events cfg else []).


End Recursive.

(** ** Concrete worlds *)

(** A backend that answers by a fixed table. *)
Definition table_backend : CrawlBackend (string -> fetch_outcome) :=
  fun web url => (web, web url).

Lemma first_seen_NoDup (l : list string) : NoDup (first_seen l).
Proof. unfold first_seen. rewrite reverse_Permutation. apply NoDup_remove_dups. Qed.

Lemma first_seen_elem (l : list string) (x : string) : x ∈ first_seen l <-> x ∈ l.
Proof.
  unfold first_seen.
  rewrite elem_of_reverse, elem_of_remove_dups, elem_of_reverse. reflexivity.
Qed.

(** A set that enumerates in the order of first insertion. *)
Definition first_seen_order : SetOrder :=
  Build_SetOrder first_seen first_seen_NoDup first_seen_elem.

(** A set that enumerates its elements from the greatest to the least. *)
Definition later_first (x y : string) : Prop := String.leb y x = true.

Definition later_first_dec (x y : string) : Decision (later_first x y) :=
  decide (String.leb y x = true).

Definition descending (l : list string) : list string :=
  @merge_sort string later_first later_first_dec (remove_dups l).

Lemma descending_NoDup (l : list string) : NoDup (descending l).
Proof. unfold descending. rewrite merge_sort_Permutation. apply NoDup_remove_dups. Qed.

Lemma descending_elem (l : list string) (x : string) : x ∈ descending l <-> x ∈ l.
Proof.
  unfold descending. rewrite merge_sort_Permutation. apply elem_of_remove_dups.
Qed.

Definition descending_order : SetOrder :=
  Build_SetOrder descending descending_NoDup descending_elem.

(** A small web: the pages that exist, each with its markdown; fetching
    any other URL raises. *)
Definition serve (pages : list (string * string)) (url : string) : fetch_outcome :=
  match List.find (fun page => String.eqb page.1 url) pages with
  | Some page => Fetched (Some page.2) 0%Q
  | None => Raised "HTTP 404"
  end.

Definition home : string := "https://www.theguardian.com".

Definition article (slug : string) : string :=
  "https://www.theguardian.com/world/2024/jan/01/" +:+ slug.

(** A page with a title line and a line of links. *)
Definition page (title : string) (links : list string) : string :=
  "# " +:+ title +:+ String newline (String.concat " " links).

(** The front page links to the articles b and c; c links back to b; b
    cannot be fetched. *)
Definition web_dead_link : list (string * string) :=
  [(home, page "Front" [article "b"; article "c"]);
   (article "c", page "C" [article "b"])].


(** The front page links to b and c, which both link to d; d cannot be
    fetched. *)
Definition web_diamond : list (string * string) :=
  [(home, page "Front" [article "b"; article "c"]);
   (article "b", page "B" [article "d"]);
   (article "c", page "C" [article "d"])].

(** The front page links to b and c, which link to each other. *)
Definition web_mutual : list (string * string) :=
  [(home, page "Front" [article "b"; article "c"]);
   (article "b", page "B" [article "c"]);
   (article "c", page "C" [article "b"])].

(** The extractor of the crawler, on sets that enumerate in the order of
    first insertion. *)
Definition guardian_links : string -> list string :=
  @Extract.depth_extract_guardian_links first_seen_order.

(** The same extractor on sets that enumerate from the greatest to the
    least: on the pages of the webs above it returns the links in the other
    order. *)
Definition guardian_links_descending : string -> list string :=
  @Extract.depth_extract_guardian_links descending_order.

(** The scenario of the specification: the seed ["A"], whose page yields
    the links B, C and D; B is a page without links, fetching C raises, and
    fetching D does [outcome_D]. *)
Definition scenario_links (content : string) : list string :=
  if String.eqb content "# A" then ["B"; "C"; "D"] else [].

Definition scenario_web (outcome_D : fetch_outcome) (url : string) : fetch_outcome :=
  if String.eqb url "A" then Fetched (Some "# A") 0%Q
  else if String.eqb url "B" then Fetched (Some "# B") 0%Q
  else if String.eqb url "C" then Raised "connection reset"
  else if String.eqb url "D" then outcome_D
  else Raised "HTTP 404".

(** The two crawlers on a table of answers. *)
Definition crawl_web (extract_links : string -> list string) (cfg : Depth.config)
    (web : string -> fetch_outcome) (start_url : string)
    : option (Depth.summary * Depth.state (string -> fetch_outcome)) :=
  @Depth.crawl_depth_limited _ table_backend extract_links cfg web start_url.


(** The state of the crawler on [web_dead_link] after the level of the
    front page. *)
Definition after_front_page : Depth.state (string -> fetch_outcome) :=
  let cfg := Depth.Config 2 2 in
  let st := @Depth.for_level _ table_backend guardian_links cfg 0 [(home, 0)]
              (Depth.enter_level (Depth.begin_run (Depth.init (serve web_dead_link)))) in
  Depth.leave_level 0 st.

(** The front page links to b, c, d and e; b cannot be fetched, and the
    other three pages have no links. *)
Definition web_wide_level : list (string * string) :=
  [(home, page "Front" [article "b"; article "c"; article "d"; article "e"]);
   (article "c", page "C" []);
   (article "d", page "D" []);
   (article "e", page "E" [])].

(** The state of the crawler on [web_wide_level], with [max_depth = 1]
    and [max_pages_per_level = 2], after the level of the front page. *)
Definition after_wide_front_page : Depth.state (string -> fetch_outcome) :=
  let cfg := Depth.Config 1 2 in
  let st := @Depth.for_level _ table_backend guardian_links cfg 0 [(home, 0)]
              (Depth.enter_level (Depth.begin_run (Depth.init (serve web_wide_level)))) in
  Depth.leave_level 0 st.

(** ** What [crawl_recursive] returns *)

(** The exception that the [return] statement of [crawl_recursive] can
    raise: [len(...) / len(crawl_results)] with no result. *)
Inductive recursive_error : Type :=
| ZeroDivisionError.

(** The dictionary that [crawl_recursive] returns, without its two
    floating-point entries ([total_time], and [success_rate], of which only
    the division by [len(crawl_results)] is kept: it raises when there is no
    result). [backend_name] is [self.backend.__class__.__name__]. *)
Record recursive_summary : Type := RecursiveSummary {
  rs_backend : string;
  rs_start_url : string;
  rs_pages_crawled : Z;
  rs_total_content : Z;
  rs_results : list Recursive.page_result
}.

(** The successful results of a list. *)
Definition rec_successes (l : list Recursive.page_result)
    : list Recursive.page_result :=
  List.filter Recursive.r_success l.

(** [sum(r["content_length"] for r in crawl_results if r["success"])] *)
Definition total_content (l : list Recursive.page_result) : Z :=
  foldr Z.add 0 (map Recursive.r_content_length (rec_successes l)).

Definition recursive_return {B} (backend_name start_url : string)
    (st : Recursive.state B) : recursive_error + recursive_summary :=
  match Recursive.crawl_results st with
  | [] => inl ZeroDivisionError
  | _ :: _ =>
      inr (RecursiveSummary backend_name start_url
             (Z.of_nat (size (Recursive.crawled_urls st)))
             (total_content (Recursive.crawl_results st))
             (Recursive.crawl_results st))
  end.

(** ** More Python string operations, for the backends *)

Module PyStr.

(** [c.lower()] on code points below 256: the letters A-Z, and the
    capital letters of Latin-1 (U+00C0 to U+00DE without the multiplication
    sign U+00D7), move up by 32. *)
Definition lower_char (c : ascii) : ascii :=
  if Py.between 65 90 c || Py.between 192 214 c || Py.between 216 222 c
  then ascii_of_nat (Py.code c + 32)
  else c.

(** [s.lower()] *)
Fixpoint lower (s : string) : string :=
  match s with
  | EmptyString => EmptyString
  | String c s' => String (lower_char c) (lower s')
  end.

Definition cons_nonempty (w : string) (ws : list string) : list string :=
  match w with
  | EmptyString => ws
  | String _ _ => w :: ws
  end.

(** The word that starts at the head of [s] (empty when [s] starts with
    white space) and the words after it. *)
Fixpoint split_aux (s : string) : string * list string :=
  match s with
  | EmptyString => (EmptyString, [])
  | String c s' =>
      let '(w, ws) := split_aux s' in
      if Py.isspace c then (EmptyString, cons_nonempty w ws) else (String c w, ws)
  end.

(** [s.split()]: the maximal runs of characters that are not white
    space. *)
Definition split (s : string) : list string :=
  let '(w, ws) := split_aux s in cons_nonempty w ws.

(** [c in chars] *)
Fixpoint char_in (chars : string) (c : ascii) : bool :=
  match chars with
  | EmptyString => false
  | String x chars' => Ascii.eqb x c || char_in chars' c
  end.

(** [s.strip(chars)] *)
Definition strip_chars (chars : string) (s : string) : string :=
  Py.strip_with (char_in chars) s.

(** [str(n)] for an integer [n] *)
Definition str_of_Z (n : Z) : string := NilZero.string_of_int (Z.to_int n).

(** [s[:n] + "..." if len(s) > n else s] *)
Definition ellipsis_if_longer (n : nat) (s : string) : string :=
  if (n <? String.length s)%nat then Py.take n s +:+ "..." else s.

End PyStr.

(** ** The results of the backends *)

(** The values of the dictionaries [structured_data] that the backends
    build: strings and lists of strings. *)
Inductive py_value : Type :=
| PStr (s : string)
| PList (l : list string).

(** A dictionary built by a dictionary display: its items in the order
    of insertion, with distinct keys. *)
Definition py_dict : Type := list (string * py_value).

(** [d.get(key)] *)
Definition dict_get (key : string) (d : py_dict) : option py_value :=
  snd <$> List.find (fun item => String.eqb item.1 key) d.

(** Modelled from the spec: the class [CrawlResult] of
    [crawlstudio/models.py] is not among the sources. Its fields are the
    keyword arguments of the calls [CrawlResult(...)] in the backends, and it
    is taken to store them as they are given. [execution_time] is the
    difference of two readings of the clock. *)
Record crawl_result : Type := CrawlResult {
  cr_url : string;
  cr_backend_used : string;
  cr_markdown : option string;
  cr_raw_html : option string;
  cr_structured_data : option py_dict;
  cr_metadata : gmap string string;
  cr_execution_time : Q;
  cr_cache_hit : bool
}.

(** ** [BrowserUseBackend]: the processing of the agent's result *)

Module BrowserUse.

(** The loop of [_extract_title] over [lines[:5]]: the first line that,
    stripped, is not empty and does not start with ["#"], cut to 100
    characters; [""] when there is none. *)
Fixpoint first_meaningful (lines : list string) : string :=
  match lines with
  | [] => EmptyString
  | line :: rest =>
      match Py.strip line with
      | EmptyString => first_meaningful rest
      | String _ _ as stripped =>
          if Py.startswith "#" stripped then first_meaningful rest
          else Py.take 100 stripped
      end
  end.

(** [_extract_title(content)] *)
Definition extract_title (content : string) : string :=
  first_meaningful (firstn 5 (Py.split newline content)).

Definition common_words : list string :=
  ["the"; "and"; "or"; "but"; "in"; "on"; "at"; "to"; "for"; "of"; "with"; "by";
   "is"; "are"; "was"; "were"].

(** The characters that [word.strip(...)] removes: the full stop, the
    comma, the exclamation and the question mark, the round, square and
    curly brackets, the double quote, the semicolon and the colon. *)
Definition punctuation : string :=
  ".,!?()[]{}" +:+ String (ascii_of_nat 34) ";:".

(** [len(word) > 3 and word not in common_words] *)
Definition keeps_word (word : string) : bool :=
  (3 <? String.length word)%nat && negb (bool_decide (word ∈ common_words)).

(** The list [keywords] of [_extract_keywords], before the set is made. *)
Definition keyword_candidates (content : string) : list string :=
  map (PyStr.strip_chars punctuation)
      (List.filter keeps_word (PyStr.split (PyStr.lower content))).

(** [_extract_keywords(content)]: [list(set(keywords))[:10]] *)
Definition extract_keywords `{SetOrder} (content : string) : list string :=
  firstn 10 (set_iter (keyword_candidates content)).

(** [_process_agent_result(url, format, agent_result, execution_time)].
    The agent's result is an object of the library; of it the method uses
    its truth value and [str(agent_result)]: [None] is a result that is
    false, [Some s] one that is true with [str(agent_result) = s]. *)
Definition process_agent_result `{SetOrder} (url format : string)
    (agent_result : option string) (execution_time : Q) : crawl_result :=
  let content := markdown_or_empty agent_result in
  let markdown_content :=
    if String.eqb format "markdown" then Some content else None in
  let html_content :=
    if String.eqb format "markdown" then None
    else if String.eqb format "html" then Some content else None in
  let structured_data :=
    if String.eqb format "markdown" then None
    else if String.eqb format "html" then None
    else if String.eqb format "structured" then
      Some [("title", PStr (extract_title content));
            ("summary", PStr (PyStr.ellipsis_if_longer 500 content));
            ("content", PStr content);
            ("keywords", PList (extract_keywords content))]
    else None in
  let metadata : gmap string string :=
    <["ai_backend" := "browser-use"]>
    (<["content_length" := PyStr.str_of_Z (Py.len content)]>
     (<["format_requested" := format]>
      (<["url" := url]> ∅))) in
  CrawlResult url "browser-use" markdown_content html_content structured_data
    metadata execution_time false.

End BrowserUse.

(** ** [ScrapyBackend] *)

Module Scrapy.

(** An item as the spider of [_run_scrapy_subprocess] writes it to the
    output file. *)
Record item : Type := Item {
  i_url : string;
  i_raw_html : string;
  i_title : string;
  i_links : list string;
  i_status_code : Z
}.

(** What the subprocess leaves behind: the items of the output file
    ([None] when the file is missing or is not JSON) and what it wrote to
    stderr, decoded; or an exception raised on the way, with its message. *)
Inductive subprocess_run : Type :=
| Completed (output : option (list item)) (stderr : string)
| Crashed (message : string).

(** The end of [_run_scrapy_subprocess]: the items of the file; without a
    readable file, [ValueError] when stderr is not empty and no items
    otherwise. The result is the list of items or the message of the
    exception. *)
Definition run_scrapy_subprocess (run : subprocess_run) : string + list item :=
  match run with
  | Completed (Some items) _ => inr items
  | Completed None EmptyString => inr []
  | Completed None stderr => inl ("Scrapy error: " +:+ stderr)
  | Crashed message => inl message
  end.

(** [ScrapyBackend.crawl(url, format)], given what the subprocess did
    and the time it took: the result, or the message of the [ValueError]. *)
Definition crawl (url format : string) (run : subprocess_run) (execution_time : Q)
    : string + crawl_result :=
  match run_scrapy_subprocess run with
  | inl message => inl ("Scrapy crawl failed: " +:+ message)
  | inr [] => inl "Scrapy returned no results"
  | inr (item :: _) =>
      let metadata : gmap string string :=
        <["title" := i_title item]>
        (<["status_code" := PyStr.str_of_Z (i_status_code item)]>
         (<["url" := i_url item]>
          (<["links_count" := PyStr.str_of_Z (Z.of_nat (length (i_links item)))]> ∅))) in
      let structured_data :=
        if String.eqb format "structured" then
          Some [("title", PStr (i_title item));
                ("summary", PStr (match i_raw_html item with
                                  | EmptyString => EmptyString
                                  | html => Py.take 200 html +:+ "..."
                                  end));
                ("keywords", PList []);
                ("links", PList (firstn 5 (i_links item)))]
        else None in
      inr (CrawlResult url "scrapy" None (Some (i_raw_html item)) structured_data
             metadata execution_time false)
  end.

(** The backend object as the crawlers see it: the state of the world
    [W], which answers a URL by what the subprocess does, the time inside
    [crawl] and the time that the crawler measures around it. *)
Definition backend {W : Type}
    (world : W -> string -> W * (subprocess_run * Q * Q)) : CrawlBackend W :=
  fun w url =>
    let '(w', (run, execution_time, elapsed)) := world w url in
    match crawl url "markdown" run execution_time with
    | inl message => (w', Raised message)
    | inr result => (w', Fetched (cr_markdown result) elapsed)
    end.

End Scrapy.

(** ** [test_recursive_links] of the comparison script *)

Module GuardianTest.

(** [sub in s] *)
Fixpoint contains (sub s : string) : bool :=
  Py.startswith sub s
  || match s with
     | EmptyString => false
     | String _ s' => contains sub s'
     end.

Definition site : string := "https://www.theguardian.com".

(** A match of
    [\[([^\]]+)\]\((https://www\.theguardian\.com[^\)]+)\)]
    at the start of [s]: the two groups and the length of the match. The
    pattern has no slash after the host. *)
Definition match_mdlink (s : string) : option ((string * string) * nat) :=
  match Re.literal "[" s with
  | None => None
  | Some s1 =>
      let '(text, s2) := Re.span (Re.not_char "]") s1 in
      match text, Re.literal "](" s2 with
      | String _ _, Some s3 =>
          match Re.literal site s3 with
          | Some s4 =>
              let '(rest, s5) := Re.span (Re.not_char ")") s4 in
              match rest, Re.literal ")" s5 with
              | String _ _, Some _ =>
                  let url := site +:+ rest in
                  Some ((text, url), (String.length text + String.length url + 4)%nat)
              | _, _ => None
              end
          | None => None
          end
      | _, _ => None
      end
  end.

(** ['link' in key.lower() or 'url' in key.lower()] *)
Definition names_links (key : string) : bool :=
  contains "link" (PyStr.lower key) || contains "url" (PyStr.lower key).

(** What one item of [structured_data] adds to [links]: of a list, the
    strings that contain ['theguardian.com']; a string that contains it. *)
Definition links_of_item (item : string * py_value) : list string :=
  if names_links item.1 then
    match item.2 with
    | PList values => List.filter (contains "theguardian.com") values
    | PStr value => if contains "theguardian.com" value then [value] else []
    end
  else [].

(** The list [links] after the two [if] statements. *)
Definition links_of (result : crawl_result) : list string :=
  match cr_structured_data result with
  | Some d => flat_map links_of_item d
  | None => []
  end
  ++ match cr_markdown result with
     | Some markdown => map snd (Re.findall match_mdlink markdown)
     | None => []
     end.

(** The dictionary that [test_recursive_links] returns. *)
Record report : Type := Report {
  found_links : Z;
  sample_links : list string;
  success : bool;
  error : option string
}.

(** [test_recursive_links(backend, url)], given what
    [backend.crawl(url, format="structured")] did: the result, or the
    message of the exception that it raised. *)
Definition test_recursive_links `{SetOrder} (outcome : string + crawl_result) : report :=
  match outcome with
  | inr result =>
      let links := links_of result in
      Report (Z.of_nat (length (set_iter links))) (firstn 5 (set_iter links)) true None
  | inl message => Report 0 [] false (Some message)
  end.

End GuardianTest.

(** The crawler on the web where b and c link to each other, after a
    first run from the front page. *)
Definition after_mutual_run : Depth.state (string -> fetch_outcome) :=
  match crawl_web guardian_links (Depth.Config 2 5) (serve web_mutual) home with
  | Some (_, st) => st
  | None => Depth.init (serve web_mutual)
  end.

(** ** Vocabulary of the further properties *)

(** No result comes after a successful result for the same URL. *)
Definition rec_no_refetch (l : list Recursive.page_result) : Prop :=
  forall (i j : nat) (ri rj : Recursive.page_result),
    l !! i = Some ri -> l !! j = Some rj -> (i < j)%nat ->
    Recursive.r_success ri = true -> Recursive.r_url rj <> Recursive.r_url ri.

(** The first and the last character of a string. *)
Definition first_char (s : string) : option ascii :=
  match s with
  | EmptyString => None
  | String c _ => Some c
  end.

Fixpoint last_char (s : string) : option ascii :=
  match s with
  | EmptyString => None
  | String c EmptyString => Some c
  | String _ s' => last_char s'
  end.




(** ** Properties of the link extractors *)

Section ExtractorFacts.
Context `{SetOrder}.

Lemma findall_from_elem {A} (m : string -> option (A * nat)) (x : A) :
  forall (s : string) (skip : nat),
    x ∈ Re.findall_from m skip s -> exists s' n, m s' = Some (x, n).
Proof.
  induction s as [|c s IH]; intros skip Hx; simpl in Hx.
  - inversion Hx.
  - destruct skip as [|k]; [|by eapply IH].
    destruct (m (String c s)) as [[y n]|] eqn:Hm; [|by eapply IH].
    apply elem_of_cons in Hx as [->|Hx]; [by eauto|by eapply IH].
Qed.

Lemma startswith_app (p s : string) : Py.startswith p (p +:+ s) = true.
Proof.
  induction p as [|a p IH]; simpl; [done|].
  by rewrite Ascii.eqb_refl.
Qed.

Lemma match_article_prefix (s m : string) (n : nat) :
  Re.match_article s = Some (m, n) -> Py.startswith Re.guardian m = true.
Proof.
  unfold Re.match_article. intros Hm.
  repeat (match type of Hm with
          | context [match ?e with _ => _ end] => destruct e; try discriminate
          end).
  injection Hm as <- _. apply startswith_app.
Qed.

Lemma match_mdlink_prefix (s text url : string) (n : nat) :
  Re.match_mdlink s = Some ((text, url), n) -> Py.startswith Re.guardian url = true.
Proof.
  unfold Re.match_mdlink. intros Hm.
  repeat (match type of Hm with
          | context [match ?e with _ => _ end] => destruct e; try discriminate
          end).
  injection Hm as _ <- _. apply startswith_app.
Qed.

(** Every link handed to [urlparse] starts with the scheme and host that
    [Urllib.path] presupposes. *)
Lemma recursive_matches_prefix (content link : string) :
  link ∈ Extract.recursive_matches content ->
  Py.startswith Re.guardian link = true.
Proof.
  unfold Extract.recursive_matches, Re.findall. intros Hin.
  apply elem_of_app in Hin as [Hin|Hin].
  - apply findall_from_elem in Hin as (s & n & Hm). by eapply match_article_prefix.
  - apply list_elem_of_fmap in Hin as ([text url] & -> & Hin).
    apply findall_from_elem in Hin as (s & n & Hm). by eapply match_mdlink_prefix.
Qed.


Lemma unique_articles_elem (matches : list string) (link : string) :
  link ∈ Extract.unique_articles matches
  <-> link ∈ matches /\ Extract.is_article link = true.
Proof.
  unfold Extract.unique_articles.
  rewrite set_iter_elem, list_elem_of_In, filter_In, <- list_elem_of_In, set_iter_elem.
  reflexivity.
Qed.

Lemma unique_articles_nil : Extract.unique_articles [] = [].
Proof.
  destruct (Extract.unique_articles []) as [|x l] eqn:E; [done|].
  assert (Hx : x ∈ Extract.unique_articles []) by (rewrite E; left).
  apply unique_articles_elem in Hx as [Hx _]. inversion Hx.
Qed.

End ExtractorFacts.

(** ** Vocabulary of the statements about [DepthLimitedCrawler] *)

(** The successful results of a list. *)
Definition successes (l : list page_result) : list page_result :=
  List.filter r_success l.

(** The results recorded at depth [k]. *)
Definition at_depth (k : Z) (l : list page_result) : list page_result :=
  List.filter (fun r => r_depth r =? k) l.

(** The events that the dispatch behind a result leaves in the trace. *)
Definition events_of (r : page_result) : list event :=
  if r_success r then [EvCrawl (r_url r); EvSleep Depth.pause]
  else [EvCrawl (r_url r)].

(** No result comes after a successful result for the same URL. *)
Definition no_refetch (l : list page_result) : Prop :=
  forall (i j : nat) (ri rj : page_result),
    l !! i = Some ri -> l !! j = Some rj -> (i < j)%nat ->
    r_success ri = true -> r_url rj <> r_url ri.

(** The result that the controller records for an outcome. *)
Definition result_of (depth : Z) (url : string) (outcome : fetch_outcome)
    : page_result :=
  match outcome with
  | Fetched markdown elapsed => Depth.success_result url depth markdown elapsed
  | Raised message => Depth.failed_result url depth message
  end.

Definition is_raised (outcome : fetch_outcome) : bool :=
  match outcome with
  | Raised _ => true
  | Fetched _ _ => false
  end.

(** The outcomes of fetching [urls] one after the other from backend
    state [b]. *)
Fixpoint fetch_all {B} `{CrawlBackend B} (b : B) (urls : list string)
    : list fetch_outcome :=
  match urls with
  | [] => []
  | url :: rest =>
      let '(b', outcome) := backend_crawl b url in
      outcome :: fetch_all b' rest
  end.

(** What [pages_at_level], which starts at 0, can reach under the test
    [pages_at_level >= self.max_pages_per_level]. *)
Definition cap (cfg : Depth.config) : Z := Z.max 0 (Depth.max_pages_per_level cfg).

(** The URLs handed to the backend, in the order of the calls. *)
Fixpoint crawls (t : list event) : list string :=
  match t with
  | [] => []
  | EvCrawl url :: t' => url :: crawls t'
  | EvSleep _ :: t' => crawls t'
  end.

(** The failed results of a list. *)
Definition failures (l : list page_result) : list page_result :=
  List.filter (fun r => negb (r_success r)) l.

(** ** Invariants of the depth-limited controller *)

Section DepthFacts.
Context {B : Type} `{CrawlBackend B}.
Variable extract_links : string -> list string.
Variable cfg : Depth.config.

Local Abbreviation attempt := (Depth.attempt extract_links cfg).
Local Abbreviation for_level := (Depth.for_level extract_links cfg).
Local Abbreviation while_levels := (Depth.while_levels extract_links cfg).
Local Abbreviation state := (Depth.state B).

(** What holds of the object and the results at any point of a run. *)
Definition flat_inv (st : state) : Prop :=
  Depth.crawled_urls st
    = list_to_set (map r_url (successes (Depth.all_results st)))
  /\ no_refetch (Depth.all_results st)
  /\ Depth.trace st = flat_map events_of (Depth.all_results st).

(** What holds inside the level of depth [d] entered in state [st0]. *)
Definition level_inv (d : Z) (st0 st : state) : Prop :=
  Depth.all_results st = Depth.all_results st0 ++ Depth.level_results st
  /\ Forall (fun r => r_depth r = d) (Depth.level_results st)
  /\ Depth.depth_results st = Depth.depth_results st0
  /\ Forall (fun item => item.2 = d + 1) (Depth.next_level st)
  /\ Depth.pages_at_level st
     = Z.of_nat (length (successes (Depth.level_results st)))
  /\ Depth.pages_at_level st <= cap cfg.

(** What holds between levels, [d] levels having been processed and
    [current_level] being the next. *)
Definition run_inv (current_level : list (string * Z)) (st : state) : Prop :=
  exists d : Z,
    0 <= d
    /\ Forall (fun item => item.2 = d) current_level
    /\ Forall (fun r => 0 <= r_depth r <= Depth.max_depth cfg /\ r_depth r < d)
         (Depth.all_results st)
    /\ (forall k : Z,
          Depth.depth_results st !! k
          = if bool_decide (0 <= k < d)
            then Some (at_depth k (Depth.all_results st)) else None)
    /\ (forall k : Z,
          Z.of_nat (length (successes (at_depth k (Depth.all_results st))))
          <= cap cfg)
    /\ StronglySorted Z.le (map r_depth (Depth.all_results st)).

Lemma for_level_inv (P : state -> Prop) (depth : Z) :
  (forall st url,
      P st -> url ∉ Depth.crawled_urls st ->
      Depth.pages_at_level st < Depth.max_pages_per_level cfg ->
      P (attempt depth url st)) ->
  forall items st, P st -> P (for_level depth items st).
Proof.
  intros Hstep. induction items as [|[url url_depth] items IH]; intros st HP; simpl.
  - exact HP.
  - case_bool_decide as Hin; [by apply IH|].
    destruct (Z.leb_spec (Depth.max_pages_per_level cfg) (Depth.pages_at_level st));
      [exact HP|].
    apply IH, Hstep; assumption.
Qed.

Lemma while_levels_inv (P : list (string * Z) -> state -> Prop) :
  (forall url d rest st,
      P ((url, d) :: rest) st -> d <= Depth.max_depth cfg ->
      let st' := for_level d ((url, d) :: rest) (Depth.enter_level st) in
      P (Depth.next_level st') (Depth.leave_level d st')) ->
  forall fuel current_level st st',
    P current_level st -> while_levels fuel current_level st = Some st' ->
    exists last_level, P last_level st'.
Proof.
  intros Hstep. induction fuel as [|fuel IH]; intros current_level st st' HP Hrun.
  - destruct current_level as [|[url d] rest]; simpl in Hrun.
    + injection Hrun as <-. eauto.
    + destruct (Z.ltb_spec (Depth.max_depth cfg) d); [|discriminate].
      injection Hrun as <-. eauto.
  - destruct current_level as [|[url d] rest]; simpl in Hrun.
    + injection Hrun as <-. eauto.
    + destruct (Z.ltb_spec (Depth.max_depth cfg) d).
      * injection Hrun as <-. eauto.
      * eapply IH; [|exact Hrun]. by apply Hstep.
Qed.

(** *** Lists of results *)

Lemma successes_app (l1 l2 : list page_result) :
  successes (l1 ++ l2) = successes l1 ++ successes l2.
Proof. apply List.filter_app. Qed.

Lemma at_depth_app (k : Z) (l1 l2 : list page_result) :
  at_depth k (l1 ++ l2) = at_depth k l1 ++ at_depth k l2.
Proof. apply List.filter_app. Qed.

Lemma at_depth_all (k : Z) (l : list page_result) :
  Forall (fun r => r_depth r = k) l -> at_depth k l = l.
Proof.
  induction 1 as [|r l Hr _ IH]; simpl; [done|].
  rewrite Hr, Z.eqb_refl. by f_equal.
Qed.

Lemma at_depth_none (k : Z) (l : list page_result) :
  Forall (fun r => r_depth r <> k) l -> at_depth k l = [].
Proof.
  induction 1 as [|r l Hr _ IH]; simpl; [done|].
  by destruct (Z.eqb_spec (r_depth r) k).
Qed.

Lemma result_of_success (depth : Z) (url : string) (outcome : fetch_outcome) :
  r_success (result_of depth url outcome) = negb (is_raised outcome).
Proof. by destruct outcome. Qed.

Lemma result_of_url (depth : Z) (url : string) (outcome : fetch_outcome) :
  r_url (result_of depth url outcome) = url.
Proof. by destruct outcome. Qed.

Lemma result_of_depth (depth : Z) (url : string) (outcome : fetch_outcome) :
  r_depth (result_of depth url outcome) = depth.
Proof. by destruct outcome. Qed.

(** *** One dispatch *)

Lemma attempt_results (depth : Z) (url : string) (st : state) :
  let r := result_of depth url (backend_crawl (Depth.backend st) url).2 in
  Depth.all_results (attempt depth url st) = Depth.all_results st ++ [r]
  /\ Depth.level_results (attempt depth url st) = Depth.level_results st ++ [r]
  /\ Depth.trace (attempt depth url st) = Depth.trace st ++ events_of r
  /\ Depth.backend (attempt depth url st) = (backend_crawl (Depth.backend st) url).1
  /\ Depth.depth_results (attempt depth url st) = Depth.depth_results st
  /\ Depth.crawled_urls (attempt depth url st)
     = (if r_success r then Depth.crawled_urls st ∪ {[url]} else Depth.crawled_urls st)
  /\ Depth.pages_at_level (attempt depth url st)
     = (if r_success r then Depth.pages_at_level st + 1 else Depth.pages_at_level st).
Proof.
  unfold Depth.attempt.
  destruct (backend_crawl (Depth.backend st) url) as [b [markdown elapsed|message]];
    simpl; repeat split; reflexivity.
Qed.

Lemma attempt_next_level (depth : Z) (url : string) (st : state) :
  exists links : list string,
    Depth.next_level (attempt depth url st)
    = Depth.next_level st ++ map (fun link => (link, depth + 1)) links
    /\ (links <> [] -> depth < Depth.max_depth cfg
                      /\ r_success (result_of depth url
                                      (backend_crawl (Depth.backend st) url).2) = true)
    /\ (length links <= 5)%nat.
Proof.
  unfold Depth.attempt.
  destruct (backend_crawl (Depth.backend st) url) as [b [markdown elapsed|message]];
    simpl.
  - destruct (Z.ltb_spec depth (Depth.max_depth cfg)).
    + eexists. split; [reflexivity|]. split; [done|].
      etransitivity; [apply List.filter_length_le|]. apply List.firstn_le_length.
    + exists []. simpl. rewrite app_nil_r. split; [done|]. split; [done|lia].
  - exists []. simpl. rewrite app_nil_r. split; [done|]. split; [done|lia].
Qed.

Lemma successes_singleton (r : page_result) :
  successes [r] = if r_success r then [r] else [].
Proof. unfold successes. simpl. by destruct (r_success r). Qed.

Lemma crawled_of_success (st : state) (r : page_result) :
  flat_inv st -> r ∈ Depth.all_results st -> r_success r = true ->
  r_url r ∈ Depth.crawled_urls st.
Proof.
  intros (Hcrawled & _ & _) Hin Hok. rewrite Hcrawled.
  apply elem_of_list_to_set, list_elem_of_fmap. exists r. split; [done|].
  apply list_elem_of_In, filter_In. split; [by apply list_elem_of_In|done].
Qed.

Lemma flat_inv_attempt (depth : Z) (url : string) (st : state) :
  flat_inv st -> url ∉ Depth.crawled_urls st -> flat_inv (attempt depth url st).
Proof.
  intros Hinv Hnew.
  destruct (attempt_results depth url st)
    as (Hall & _ & Htrace & _ & _ & Hcrawled & _).
  set (r := result_of depth url (backend_crawl (Depth.backend st) url).2) in *.
  assert (Hurl : r_url r = url) by apply result_of_url.
  pose proof Hinv as (Hc & Hno & Ht).
  repeat split.
  - rewrite Hcrawled, Hall, successes_app, map_app, list_to_set_app_L, <- Hc.
    rewrite successes_singleton. destruct (r_success r); simpl.
    + by rewrite Hurl, union_empty_r_L.
    + by rewrite union_empty_r_L.
  - rewrite Hall. intros i j ri rj Hi Hj Hlt Hok.
    destruct (decide (j < length (Depth.all_results st))%nat) as [Hjl|Hjl].
    + rewrite lookup_app_l in Hi by lia. rewrite lookup_app_l in Hj by lia.
      by eapply Hno.
    + apply lookup_lt_Some in Hj as Hjlt. rewrite length_app in Hjlt. simpl in Hjlt.
      rewrite lookup_app_r in Hj by lia.
      replace (j - length (Depth.all_results st))%nat with 0%nat in Hj by lia.
      injection Hj as <-.
      rewrite lookup_app_l in Hi by lia.
      rewrite Hurl. intros ->. apply Hnew.
      eapply crawled_of_success; [exact Hinv| |exact Hok].
      by eapply list_elem_of_lookup_2.
  - rewrite Htrace, Hall, flat_map_app, Ht. simpl. by rewrite app_nil_r.
Qed.

Lemma flat_inv_for_level (depth : Z) (items : list (string * Z)) (st : state) :
  flat_inv st -> flat_inv (for_level depth items st).
Proof.
  apply for_level_inv. intros st' url Hinv Hnew _. by apply flat_inv_attempt.
Qed.

Lemma flat_inv_run (fuel : nat) (current_level : list (string * Z)) (st st' : state) :
  flat_inv st -> while_levels fuel current_level st = Some st' -> flat_inv st'.
Proof.
  intros Hinv Hrun.
  destruct (while_levels_inv (fun _ => flat_inv)) with (2 := Hinv) (3 := Hrun)
    as [_ Hfinal]; [|exact Hfinal].
  intros url d rest st0 Hst0 _ st1. subst st1.
  apply (flat_inv_for_level d ((url, d) :: rest) (Depth.enter_level st0)), Hst0.
Qed.

Lemma flat_inv_init (b : B) : flat_inv (Depth.begin_run (Depth.init b)).
Proof.
  repeat split. intros i j ri rj Hi. simpl in Hi. by rewrite lookup_nil in Hi.
Qed.

(** *** One level *)

Lemma level_inv_enter (d : Z) (st : state) :
  level_inv d (Depth.enter_level st) (Depth.enter_level st).
Proof.
  unfold level_inv, cap. simpl. rewrite app_nil_r.
  repeat split; try constructor. lia.
Qed.

Lemma level_inv_attempt (d : Z) (url : string) (st0 st : state) :
  level_inv d st0 st ->
  Depth.pages_at_level st < Depth.max_pages_per_level cfg ->
  level_inv d st0 (attempt d url st).
Proof.
  intros (Hall & Hdepth & Hdr & Hnext & Hpages & Hcap) Hlt.
  destruct (attempt_results d url st)
    as (Hall' & Hlevel' & _ & _ & Hdr' & _ & Hpages').
  destruct (attempt_next_level d url st) as (links & Hnext' & _ & _).
  set (r := result_of d url (backend_crawl (Depth.backend st) url).2) in *.
  unfold level_inv.
  rewrite Hall', Hlevel', Hdr', Hnext', Hpages', Hall, Hdr, successes_app,
    successes_singleton, length_app.
  repeat split.
  - by rewrite app_assoc.
  - apply Forall_app. split; [done|]. constructor; [apply result_of_depth|constructor].
  - apply Forall_app. split; [done|]. apply Forall_forall.
    intros item Hitem. apply list_elem_of_fmap in Hitem as (link & -> & _). done.
  - destruct (r_success r); simpl; lia.
  - unfold cap in *. destruct (r_success r); lia.
Qed.

Lemma level_inv_for_level (d : Z) (items : list (string * Z)) (st : state) :
  level_inv d (Depth.enter_level st) (for_level d items (Depth.enter_level st)).
Proof.
  apply (for_level_inv (level_inv d (Depth.enter_level st))).
  - intros st' url Hinv _ Hlt. by apply level_inv_attempt.
  - apply level_inv_enter.
Qed.

(** *** From one level to the next *)

Lemma same_depth_sorted (d : Z) (l : list page_result) :
  Forall (fun r => r_depth r = d) l -> StronglySorted Z.le (map r_depth l).
Proof.
  induction 1 as [|r l Hr Hl IH]; simpl; constructor; [exact IH|].
  apply Forall_fmap. eapply Forall_impl; [exact Hl|]. simpl. intros r'. lia.
Qed.

Lemma run_inv_step (url : string) (d : Z) (rest : list (string * Z)) (st : state) :
  run_inv ((url, d) :: rest) st -> d <= Depth.max_depth cfg ->
  let st' := for_level d ((url, d) :: rest) (Depth.enter_level st) in
  run_inv (Depth.next_level st') (Depth.leave_level d st').
Proof.
  intros (d0 & Hd0 & Hcur & Hres & Hdr & Hbound & Hsorted) Hmax st'.
  apply Forall_cons in Hcur as [Heq _]. simpl in Heq. subst d0.
  pose proof (level_inv_for_level d ((url, d) :: rest) st)
    as (Hall & Hdepth & Hdr' & Hnext & Hpages & Hcap).
  fold st' in Hall, Hdepth, Hdr', Hnext, Hpages, Hcap. simpl in Hall, Hdr'.
  assert (Hold : forall k, k <> d ->
            at_depth k (Depth.all_results st') = at_depth k (Depth.all_results st)).
  { intros k Hk. rewrite Hall, at_depth_app, (at_depth_none k (Depth.level_results st')).
    - apply app_nil_r.
    - eapply Forall_impl; [exact Hdepth|]. simpl. intros r ->. done. }
  assert (Hnew : at_depth d (Depth.all_results st') = Depth.level_results st').
  { rewrite Hall, at_depth_app, at_depth_none, at_depth_all; [done|done|].
    eapply Forall_impl; [exact Hres|]. simpl. intros r. lia. }
  exists (d + 1). unfold Depth.leave_level. simpl.
  split; [lia|]. split; [exact Hnext|]. split; [|split; [|split]].
  - rewrite Hall. apply Forall_app. split.
    + eapply Forall_impl; [exact Hres|]. simpl. intros r. lia.
    + eapply Forall_impl; [exact Hdepth|]. simpl. intros r. lia.
  - intros k. rewrite Hdr'. destruct (decide (k = d)) as [->|Hk].
    + rewrite lookup_insert_eq, Hnew. by rewrite bool_decide_eq_true_2 by lia.
    + rewrite lookup_insert_ne by done. rewrite Hdr, Hold by done.
      by rewrite (bool_decide_ext (0 <= k < d) (0 <= k < d + 1)) by lia.
  - intros k. destruct (decide (k = d)) as [->|Hk].
    + rewrite Hnew, <- Hpages. exact Hcap.
    + rewrite Hold by done. apply Hbound.
  - rewrite Hall, map_app. apply StronglySorted_app. split; [|split].
    + intros x1 x2 Hx1 Hx2.
      apply list_elem_of_fmap in Hx1 as (r1 & -> & Hr1).
      apply list_elem_of_fmap in Hx2 as (r2 & -> & Hr2).
      rewrite Forall_forall in Hres, Hdepth.
      specialize (Hres r1 Hr1). specialize (Hdepth r2 Hr2). lia.
    + exact Hsorted.
    + by apply (same_depth_sorted d).
Qed.

Lemma run_inv_init (b : B) (start_url : string) :
  run_inv [(start_url, 0)] (Depth.begin_run (Depth.init b)).
Proof.
  exists 0. simpl. split; [lia|]. split; [by repeat constructor|].
  split; [constructor|]. split; [|split].
  - intros k. rewrite lookup_empty. by rewrite bool_decide_eq_false_2 by lia.
  - intros k. unfold cap. simpl. lia.
  - constructor.
Qed.

Lemma run_inv_run (fuel : nat) (current_level : list (string * Z)) (st st' : state) :
  run_inv current_level st -> while_levels fuel current_level st = Some st' ->
  exists last_level, run_inv last_level st'.
Proof.
  intros Hinv Hrun.
  apply (while_levels_inv run_inv) with (2 := Hinv) (3 := Hrun).
  intros url d rest st0. apply run_inv_step.
Qed.

(** *** The loop ends *)

Lemma while_levels_total (fuel : nat) :
  forall (current_level : list (string * Z)) (st : state),
    (forall url d rest,
        current_level = (url, d) :: rest ->
        (Z.to_nat (Depth.max_depth cfg + 1 - d) <= fuel)%nat) ->
    is_Some (while_levels fuel current_level st).
Proof.
  induction fuel as [|fuel IH]; intros current_level st Hfuel;
    destruct current_level as [|[url d] rest]; simpl; try done.
  - destruct (Z.ltb_spec (Depth.max_depth cfg) d); [done|].
    specialize (Hfuel url d rest eq_refl). lia.
  - destruct (Z.ltb_spec (Depth.max_depth cfg) d); [done|].
    apply IH. intros url' d' rest' Hnext.
    pose proof (level_inv_for_level d ((url, d) :: rest) st)
      as (_ & _ & _ & Hitems & _).
    simpl in Hitems. rewrite Hnext in Hitems.
    apply Forall_cons in Hitems as [Heq _]. simpl in Heq.
    specialize (Hfuel url d rest eq_refl). lia.
Qed.

Lemma run_total (st : state) (start_url : string) :
  is_Some (Depth.run extract_links cfg st start_url).
Proof.
  apply while_levels_total. intros url d rest [= _ <- _].
  unfold Depth.enough_fuel. lia.
Qed.

(** A run on a new object returns, and its result has all the invariants. *)
Lemma run_init_spec (b : B) (start_url : string) :
  exists st : state,
    Depth.run extract_links cfg (Depth.init b) start_url = Some st
    /\ flat_inv st
    /\ exists last_level, run_inv last_level st.
Proof.
  destruct (run_total (Depth.init b) start_url) as [st Hrun].
  exists st. split; [exact Hrun|]. split.
  - eapply flat_inv_run; [apply flat_inv_init|exact Hrun].
  - eapply run_inv_run; [apply run_inv_init|exact Hrun].
Qed.

(** *** A level whose items are all dispatched *)

Lemma fetch_all_length (b : B) (urls : list string) :
  length (fetch_all b urls) = length urls.
Proof.
  revert b. induction urls as [|url urls IH]; intros b; simpl; [done|].
  destruct (backend_crawl b url) as [b' outcome]. simpl. by rewrite IH.
Qed.

Lemma for_level_grows (depth : Z) (items : list (string * Z)) (st : state) :
  Depth.crawled_urls st ⊆ Depth.crawled_urls (for_level depth items st)
  /\ Depth.next_level st `prefix_of` Depth.next_level (for_level depth items st).
Proof.
  apply (for_level_inv (fun st' =>
    Depth.crawled_urls st ⊆ Depth.crawled_urls st'
    /\ Depth.next_level st `prefix_of` Depth.next_level st')); [|done].
  intros st' url [Hsub Hpre] _ _.
  destruct (attempt_results depth url st') as (_ & _ & _ & _ & _ & Hcrawled & _).
  destruct (attempt_next_level depth url st') as (links & Hnext & _).
  rewrite Hcrawled, Hnext. split.
  - destruct (r_success _); [|done]. etransitivity; [exact Hsub|]. apply union_subseteq_l.
  - etransitivity; [exact Hpre|]. by apply prefix_app_r.
Qed.

(** A level of distinct URLs, none crawled yet, that fits under the cap:
    every item is dispatched, in order, and each result is the one of its
    own outcome. *)
Lemma for_level_all_dispatched (depth : Z) (items : list (string * Z)) :
  forall st : state,
    NoDup items.*1 ->
    (forall url, url ∈ items.*1 -> url ∉ Depth.crawled_urls st) ->
    Depth.pages_at_level st + Z.of_nat (length items) <= Depth.max_pages_per_level cfg ->
    Depth.level_results (for_level depth items st)
    = Depth.level_results st
      ++ zip_with (result_of depth) items.*1 (fetch_all (Depth.backend st) items.*1).
Proof.
  induction items as [|[url url_depth] items IH]; intros st Hnodup Hnew Hcap.
  - simpl. by rewrite app_nil_r.
  - simpl in *. apply NoDup_cons in Hnodup as [Hfresh Hnodup].
    rewrite bool_decide_eq_false_2 by (apply Hnew; left).
    destruct (Z.leb_spec (Depth.max_pages_per_level cfg) (Depth.pages_at_level st));
      [lia|].
    destruct (attempt_results depth url st)
      as (_ & Hlevel & _ & Hbackend & _ & Hcrawled & Hpages).
    rewrite IH.
    + rewrite Hlevel, Hbackend.
      destruct (backend_crawl (Depth.backend st) url) as [b outcome]. simpl.
      by rewrite <- app_assoc.
    + exact Hnodup.
    + intros u Hu. rewrite Hcrawled.
      assert (u ∉ Depth.crawled_urls st) by (apply Hnew; by right).
      destruct (r_success _); [|done].
      apply not_elem_of_union. split; [done|].
      apply not_elem_of_singleton. by intros ->.
    + rewrite Hpages. destruct (r_success _); lia.
Qed.

(** The links of a page that was fetched are in the next level, unless
    their URL has been crawled by the end of the level. *)
Lemma for_level_enqueues (depth : Z) (items : list (string * Z)) :
  forall (st : state) (i : nat) (url link : string) (markdown : option string)
         (elapsed : Q),
    NoDup items.*1 ->
    (forall url, url ∈ items.*1 -> url ∉ Depth.crawled_urls st) ->
    Depth.pages_at_level st + Z.of_nat (length items) <= Depth.max_pages_per_level cfg ->
    depth < Depth.max_depth cfg ->
    items.*1 !! i = Some url ->
    fetch_all (Depth.backend st) items.*1 !! i = Some (Fetched markdown elapsed) ->
    link ∈ firstn 5 (extract_links (markdown_or_empty markdown)) ->
    link ∉ Depth.crawled_urls (for_level depth items st) ->
    (link, depth + 1) ∈ Depth.next_level (for_level depth items st).
Proof.
  induction items as [|[u url_depth] items IH];
    intros st i url link markdown elapsed Hnodup Hnew Hcap Hdepth Hurl Hout Hlink Hnot.
  - destruct i; discriminate.
  - simpl in Hnodup, Hnew, Hcap, Hurl, Hout.
    apply NoDup_cons in Hnodup as [Hfresh Hnodup].
    simpl in Hnot |- *.
    rewrite bool_decide_eq_false_2 in Hnot |- * by (apply Hnew; left).
    destruct (Z.leb_spec (Depth.max_pages_per_level cfg) (Depth.pages_at_level st));
      [lia|].
    destruct (attempt_results depth u st)
      as (_ & _ & _ & Hbackend & _ & Hcrawled & Hpages).
    destruct (for_level_grows depth items (attempt depth u st)) as [Hsub Hpre].
    destruct i as [|i].
    + simpl in Hurl. injection Hurl as ->.
      eapply elem_of_prefix; [|exact Hpre].
      unfold Depth.attempt in Hnot, Hsub |- *.
      destruct (backend_crawl (Depth.backend st) url) as [b outcome]. simpl in Hout.
      injection Hout as ->. simpl in Hsub |- *.
      destruct (Z.ltb_spec depth (Depth.max_depth cfg)); [|lia].
      apply elem_of_app. right. unfold Depth.new_items.
      apply list_elem_of_fmap. exists link. split; [done|].
      apply list_elem_of_In, filter_In. split; [by apply list_elem_of_In|].
      apply negb_true_iff, bool_decide_eq_false_2. intros Hin. apply Hnot.
      by apply Hsub.
    + eapply IH; try eassumption.
      * intros u' Hu'. rewrite Hcrawled.
        assert (u' ∉ Depth.crawled_urls st) by (apply Hnew; by right).
        destruct (r_success _); [|done].
        apply not_elem_of_union. split; [done|].
        apply not_elem_of_singleton. by intros ->.
      * rewrite Hpages. destruct (r_success _); lia.
      * rewrite Hbackend.
        destruct (backend_crawl (Depth.backend st) u) as [b outcome]. exact Hout.
Qed.

(** *** Consequences for the results of a run *)

Lemma crawls_events_of (l : list page_result) :
  crawls (flat_map events_of l) = map r_url l.
Proof.
  induction l as [|r l IH]; simpl; [done|].
  unfold events_of at 1. destruct (r_success r); simpl; by rewrite IH.
Qed.

Lemma no_refetch_tail (r : page_result) (l : list page_result) :
  no_refetch (r :: l) -> no_refetch l.
Proof.
  intros Hno i j ri rj Hi Hj Hlt. apply (Hno (S i) (S j)); simpl; [done|done|lia].
Qed.

Lemma no_refetch_NoDup (l : list page_result) :
  no_refetch l -> NoDup (map r_url (successes l)).
Proof.
  induction l as [|r l IH]; intros Hno; simpl; [constructor|].
  specialize (IH (no_refetch_tail r l Hno)).
  destruct (r_success r) eqn:Hok; [|exact IH].
  simpl. constructor; [|exact IH].
  intros Hin. apply list_elem_of_fmap in Hin as (r' & Hurl & Hin).
  apply list_elem_of_In, filter_In in Hin as [Hin _].
  apply list_elem_of_In, list_elem_of_lookup in Hin as [j Hj].
  apply (Hno 0%nat (S j) r r'); simpl; [done|done|lia|done|done].
Qed.

Lemma failures_zip (depth : Z) (urls : list string) (outcomes : list fetch_outcome) :
  length urls = length outcomes ->
  length (failures (zip_with (result_of depth) urls outcomes))
  = length (List.filter is_raised outcomes).
Proof.
  revert outcomes. induction urls as [|url urls IH]; intros [|outcome outcomes] Hlen;
    simpl in *; try done.
  rewrite result_of_success. destruct (is_raised outcome); simpl; rewrite IH; lia.
Qed.

Lemma crawl_depth_limited_spec (b : B) (start_url : string) :
  exists st : state,
    Depth.crawl_depth_limited extract_links cfg b start_url
    = Some (Depth.summarize st, st)
    /\ flat_inv st
    /\ exists last_level, run_inv last_level st.
Proof.
  destruct (run_init_spec b start_url) as (st & Hrun & Hflat & Hinv).
  exists st. unfold Depth.crawl_depth_limited. rewrite Hrun. done.
Qed.

(** The links that a dispatch appends to [next_level] are not in
    [crawled_urls] at that point. *)
Lemma attempt_queues_uncrawled (depth : Z) (url : string) (st : state) :
  exists added : list (string * Z),
    Depth.next_level (attempt depth url st) = Depth.next_level st ++ added
    /\ Forall (fun item => item.1 ∉ Depth.crawled_urls (attempt depth url st)) added.
Proof.
  unfold Depth.attempt.
  destruct (backend_crawl (Depth.backend st) url) as [b [markdown elapsed|message]];
    simpl.
  - destruct (depth <? Depth.max_depth cfg).
    + eexists. split; [reflexivity|]. unfold Depth.new_items.
      apply Forall_fmap, Forall_forall. intros link Hlink. simpl.
      apply list_elem_of_In, filter_In in Hlink as [_ Hlink].
      apply negb_true_iff in Hlink. by apply bool_decide_eq_false in Hlink.
    + exists []. by rewrite app_nil_r.
  - exists []. by rewrite app_nil_r.
Qed.

(** C1, as amended. A run on a new crawler returns. The URLs handed to
    the backend are the URLs of the page results, in the same order;
    [crawled_urls] holds exactly the URLs whose fetch returned (a URL whose
    fetch raised is not added); once a URL has been fetched with success no
    later page result has that URL, so that at most one successful page
    result exists per URL; and a URL in [crawled_urls] is never queued
    again: at any point of any run, a dispatch only appends to [next_level],
    and what it appends is not in [crawled_urls] at that point. *)
Theorem visited_set_is_successes_only (b : B) (start_url : string) :
  (exists (s : Depth.summary) (st : state),
      Depth.crawl_depth_limited extract_links cfg b start_url = Some (s, st)
      /\ crawls (Depth.trace st) = map r_url (Depth.summary_results s)
      /\ (forall url : string,
            url ∈ Depth.crawled_urls st
            <-> exists r, r ∈ Depth.summary_results s
                          /\ r_success r = true /\ r_url r = url)
      /\ no_refetch (Depth.summary_results s)
      /\ NoDup (map r_url (successes (Depth.summary_results s))))
  /\ (forall (depth : Z) (url : string) (st : state),
        exists added : list (string * Z),
          Depth.next_level (attempt depth url st) = Depth.next_level st ++ added
          /\ Forall (fun item => item.1 ∉ Depth.crawled_urls (attempt depth url st))
               added).
Proof.
  split; [|apply attempt_queues_uncrawled].
  destruct (crawl_depth_limited_spec b start_url)
    as (st & Hcrawl & (Hcrawled & Hno & Htrace) & _).
  exists (Depth.summarize st), st. simpl.
  split; [exact Hcrawl|]. split; [|split; [|split]].
  - rewrite Htrace. apply crawls_events_of.
  - intros url. rewrite Hcrawled, elem_of_list_to_set, list_elem_of_fmap. split.
    + intros (r & -> & Hin). apply list_elem_of_In, filter_In in Hin as [Hin Hok].
      exists r. by rewrite list_elem_of_In.
    + intros (r & Hin & Hok & <-). exists r. split; [done|].
      apply list_elem_of_In, filter_In. by rewrite <- list_elem_of_In.
  - exact Hno.
  - by apply no_refetch_NoDup.
Qed.


Lemma while_levels_beyond (fuel : nat) (url : string) (d : Z)
    (rest : list (string * Z)) (st : state) :
  Depth.max_depth cfg < d -> while_levels fuel ((url, d) :: rest) st = Some st.
Proof.
  intros Hmax.
  destruct fuel; simpl; by destruct (Z.ltb_spec (Depth.max_depth cfg) d); [|lia].
Qed.

(** C7. A dispatch at depth [depth] appends to [next_level] only items of
    depth [depth + 1], and only when [depth < max_depth]; the loop does not
    process a level whose depth exceeds [max_depth]; and in a run on a new
    crawler every page result has a depth between 0 and [max_depth]. *)
Theorem depth_of_items_and_results (b : B) (start_url : string) :
  (forall (depth : Z) (url : string) (st : state) (item : string * Z),
      item ∈ Depth.next_level (attempt depth url st) ->
      item ∈ Depth.next_level st
      \/ (item.2 = depth + 1 /\ depth < Depth.max_depth cfg))
  /\ (forall (depth : Z) (url : string) (st : state),
        Depth.max_depth cfg <= depth ->
        Depth.next_level (attempt depth url st) = Depth.next_level st)
  /\ (forall (fuel : nat) (url : string) (d : Z) (rest : list (string * Z))
             (st : state),
        Depth.max_depth cfg < d ->
        while_levels fuel ((url, d) :: rest) st = Some st)
  /\ exists (s : Depth.summary) (st : state),
       Depth.crawl_depth_limited extract_links cfg b start_url = Some (s, st)
       /\ Forall (fun r => 0 <= r_depth r <= Depth.max_depth cfg)
            (Depth.summary_results s).
Proof.
  split; [|split; [|split]].
  - intros depth url st item Hin.
    destruct (attempt_next_level depth url st) as (links & Hnext & Hlinks & _).
    rewrite Hnext in Hin. apply elem_of_app in Hin as [Hin|Hin]; [by left|right].
    apply list_elem_of_fmap in Hin as (link & -> & Hin). split; [done|].
    apply Hlinks. intros ->. inversion Hin.
  - intros depth url st Hmax.
    destruct (attempt_next_level depth url st) as (links & Hnext & Hlinks & _).
    destruct links as [|link links]; [by rewrite Hnext, app_nil_r|].
    destruct Hlinks as [Hlt _]; [done|lia].
  - intros fuel url d rest st Hmax. by apply while_levels_beyond.
  - destruct (crawl_depth_limited_spec b start_url)
      as (st & Hcrawl & _ & last_level & d & _ & _ & Hres & _).
    exists (Depth.summarize st), st. split; [exact Hcrawl|]. simpl.
    eapply Forall_impl; [exact Hres|]. simpl. intros r. lia.
Qed.

(** C9, as amended. No configuration is rejected. With
    [max_pages_per_level < 1] or [max_depth < 0] a run on a new crawler
    returns a summary like any other run: a summary without pages, before
    which the backend was not called and nothing was crawled. *)
Theorem invalid_config_gives_empty_summary (b : B) (start_url : string) :
  Depth.max_pages_per_level cfg < 1 \/ Depth.max_depth cfg < 0 ->
  exists (s : Depth.summary) (st : state),
    Depth.crawl_depth_limited extract_links cfg b start_url = Some (s, st)
    /\ Depth.total_pages s = 0
    /\ Depth.successful_pages s = 0
    /\ Depth.summary_results s = []
    /\ Depth.max_depth_reached s = 0
    /\ Depth.trace st = []
    /\ Depth.backend st = b
    /\ Depth.crawled_urls st = ∅.
Proof.
  intros Hbad. unfold Depth.crawl_depth_limited, Depth.run, Depth.enough_fuel.
  destruct (Z.ltb_spec (Depth.max_depth cfg) 0) as [Hneg|Hpos].
  - rewrite while_levels_beyond by done.
    eexists _, _. split; [reflexivity|]. by repeat split.
  - destruct Hbad as [Hcap|]; [|lia].
    destruct (Z.to_nat (Depth.max_depth cfg + 1)) as [|fuel] eqn:Hfuel; [lia|].
    simpl. destruct (Z.ltb_spec (Depth.max_depth cfg) 0); [lia|].
    rewrite bool_decide_eq_false_2 by apply not_elem_of_empty.
    destruct (Z.leb_spec (Depth.max_pages_per_level cfg) 0); [|lia].
    simpl. destruct fuel; simpl; (eexists _, _; split; [reflexivity|]);
      by repeat split.
Qed.

End DepthFacts.

(** ** Invariants of the recursive controller *)

Section RecursiveFacts.
Context {B : Type} `{CrawlBackend B}.
Variable extract_links : string -> string -> list string.
Hypothesis extract_capped :
  forall content base_url, (length (extract_links content base_url) <= 5)%nat.
Variable cfg : Recursive.config.

Local Abbreviation attempt := (Recursive.attempt extract_links cfg).
Local Abbreviation iteration := (Recursive.iteration extract_links cfg).
Local Abbreviation while_queue := (Recursive.while_queue extract_links cfg).
Local Abbreviation state := (Recursive.state B).

Definition rec_inv (st : state) : Prop :=
  NoDup (Recursive.queue st)
  /\ Recursive.trace st
     = flat_map (Recursive.events_of cfg) (Recursive.crawl_results st).

Lemma enqueue_NoDup (crawled : gset string) (queue : list string) (link : string) :
  NoDup queue -> NoDup (Recursive.enqueue crawled queue link).
Proof.
  intros Hq. unfold Recursive.enqueue.
  case_bool_decide; [done|]. case_bool_decide; [done|].
  apply NoDup_app. split; [done|]. split; [|apply NoDup_singleton].
  intros x Hx Hx'. apply list_elem_of_singleton in Hx'. by subst.
Qed.

Lemma enqueue_length (crawled : gset string) (queue : list string) (link : string) :
  (length (Recursive.enqueue crawled queue link) <= S (length queue))%nat.
Proof.
  unfold Recursive.enqueue.
  case_bool_decide; [lia|]. case_bool_decide; [lia|].
  rewrite length_app. simpl. lia.
Qed.

Lemma fold_enqueue_NoDup (crawled : gset string) (links queue : list string) :
  NoDup queue -> NoDup (fold_left (Recursive.enqueue crawled) links queue).
Proof.
  revert queue. induction links as [|link links IH]; intros queue Hq; simpl; [done|].
  by apply IH, enqueue_NoDup.
Qed.

Lemma fold_enqueue_length (crawled : gset string) (links queue : list string) :
  (length (fold_left (Recursive.enqueue crawled) links queue)
   <= length queue + length links)%nat.
Proof.
  revert queue. induction links as [|link links IH]; intros queue; simpl; [lia|].
  etransitivity; [apply IH|]. pose proof (enqueue_length crawled queue link). lia.
Qed.

Lemma rec_inv_attempt (url : string) (st : state) :
  rec_inv st -> rec_inv (attempt url st).
Proof.
  intros [Hq Ht]. unfold Recursive.attempt.
  destruct (backend_crawl (Recursive.backend st) url) as [b [markdown elapsed|message]];
    split; simpl.
  - destruct (Recursive.below_max_pages _ _); [by apply fold_enqueue_NoDup|done].
  - rewrite flat_map_app, Ht. simpl. by rewrite app_nil_r.
  - done.
  - rewrite flat_map_app, Ht. simpl. done.
Qed.

Lemma rec_inv_iteration (st st' : state) :
  rec_inv st -> iteration st = Some st' -> rec_inv st'.
Proof.
  intros [Hq Ht]. unfold Recursive.iteration.
  destruct (Recursive.queue st) as [|url rest] eqn:Hqueue; [done|].
  apply NoDup_cons in Hq as [_ Hq].
  destruct (Recursive.below_max_pages cfg (Recursive.crawled_urls st)); [|done].
  case_bool_decide; intros [= <-].
  - by split.
  - apply rec_inv_attempt. by split.
Qed.


Lemma rec_inv_while (fuel : nat) :
  forall st st' : state, rec_inv st -> while_queue fuel st = Some st' -> rec_inv st'.
Proof.
  induction fuel as [|fuel IH]; intros st st' Hinv; simpl;
    destruct (iteration st) as [st1|] eqn:Hit; try done.
  - by intros [= <-].
  - apply IH. by eapply rec_inv_iteration.
  - by intros [= <-].
Qed.

Lemma rec_inv_init (b : B) (start_url : string) : rec_inv (Recursive.init b start_url).
Proof. split; [apply NoDup_singleton|done]. Qed.

(** Every iteration uses up some of the fuel that [enough_fuel] counts. *)
Lemma iteration_decreases (st st' : state) :
  iteration st = Some st' ->
  (Recursive.enough_fuel cfg st' < Recursive.enough_fuel cfg st)%nat.
Proof.
  unfold Recursive.iteration, Recursive.enough_fuel.
  destruct (Recursive.queue st) as [|url rest] eqn:Hqueue; [done|].
  unfold Recursive.below_max_pages at 1.
  destruct (Z.ltb_spec (Z.of_nat (size (Recursive.crawled_urls st)))
              (Recursive.max_pages cfg)) as [Hlt|]; [|done].
  case_bool_decide as Hin; intros [= <-]; simpl; [lia|].
  unfold Recursive.attempt. simpl.
  destruct (backend_crawl (Recursive.backend st) url) as [b [markdown elapsed|message]];
    simpl; [|lia].
  rewrite size_union by (apply disjoint_singleton_r; exact Hin).
  rewrite size_singleton.
  pose proof (fold_enqueue_length (Recursive.crawled_urls st ∪ {[url]})
                (extract_links (markdown_or_empty markdown) url) rest) as Hlen.
  pose proof (extract_capped (markdown_or_empty markdown) url) as Hfive.
  destruct (Recursive.below_max_pages _ _); lia.
Qed.

Lemma while_queue_total (fuel : nat) :
  forall st : state,
    (Recursive.enough_fuel cfg st <= fuel)%nat -> is_Some (while_queue fuel st).
Proof.
  induction fuel as [|fuel IH]; intros st Hfuel; simpl;
    destruct (iteration st) as [st1|] eqn:Hit; try done.
  - apply iteration_decreases in Hit. lia.
  - apply IH. apply iteration_decreases in Hit. lia.
Qed.

(** The recursive crawl on a new object returns, with a queue without
    repetition and a trace that follows the results. *)
Lemma crawl_recursive_spec (b : B) (start_url : string) :
  exists st : state,
    Recursive.crawl_recursive extract_links cfg b start_url = Some st
    /\ rec_inv st.
Proof.
  unfold Recursive.crawl_recursive.
  destruct (while_queue_total (Recursive.enough_fuel cfg (Recursive.init b start_url))
              (Recursive.init b start_url)) as [st Hrun]; [lia|].
  exists st. split; [exact Hrun|].
  eapply rec_inv_while; [apply rec_inv_init|exact Hrun].
Qed.

End RecursiveFacts.

(** ** The claims about the link extractors and about the delay *)

Lemma firstn_NoDup_elem (n : nat) (l : list string) :
  NoDup l -> NoDup (firstn n l) /\ (forall x, x ∈ firstn n l -> x ∈ l)
             /\ (length (firstn n l) <= n)%nat.
Proof.
  intros Hl. split; [|split].
  - eapply sublist_NoDup; [exact Hl|apply sublist_take].
  - intros x. apply subseteq_take.
  - apply List.firstn_le_length.
Qed.

Lemma extract_guardian_links_capped `{SetOrder} (content base_url : string) :
  (length (Extract.recursive_extract_guardian_links content base_url) <= 5)%nat.
Proof. apply List.firstn_le_length. Qed.



(** ** The depths of the summary *)

Lemma foldr_max_spec (k : Z) (ks : list Z) :
  foldr Z.max k ks ∈ k :: ks /\ Forall (fun x => x <= foldr Z.max k ks) (k :: ks).
Proof.
  induction ks as [|x ks [IHin IHle]]; simpl.
  - split; [left|]. constructor; [lia|constructor].
  - apply Forall_cons in IHle as [Hk Hks]. split.
    + destruct (Z.max_spec x (foldr Z.max k ks)) as [[_ ->]|[_ ->]].
      * apply elem_of_cons in IHin as [->|Hin]; [left|right; by right].
      * right; left.
    + constructor; [lia|]. constructor; [lia|].
      eapply Forall_impl; [exact Hks|]. simpl. intros y. lia.
Qed.

Lemma max_key_range {A} (m : gmap Z A) (d : Z) :
  (forall k : Z, is_Some (m !! k) <-> 0 <= k < d) ->
  Depth.max_key m = Z.max 0 (d - 1).
Proof.
  intros Hkeys. unfold Depth.max_key.
  destruct (elements (dom m)) as [|k ks] eqn:Helems.
  - destruct (Z.le_gt_cases d 0) as [|Hpos]; [lia|].
    assert (Hin : (d - 1) ∈ elements (dom m)).
    { apply elem_of_elements, elem_of_dom, Hkeys. lia. }
    rewrite Helems in Hin. inversion Hin.
  - destruct (foldr_max_spec k ks) as [Hin Hle]. rewrite <- Helems in Hin, Hle.
    apply elem_of_elements, elem_of_dom, Hkeys in Hin.
    assert (Hlast : (d - 1) ∈ elements (dom m)).
    { apply elem_of_elements, elem_of_dom, Hkeys. lia. }
    rewrite Forall_forall in Hle. apply Hle in Hlast. lia.
Qed.

(** The summary of a run on a new crawler that processed [levels] levels:
    the buckets are those of the depths below [levels], each with the page
    results of its depth, and [max_depth_reached] is the last of these
    depths, whether its bucket has results or not. *)
Lemma summary_depths {B : Type} `{CrawlBackend B}
    (extract_links : string -> list string) (cfg : Depth.config) (b : B)
    (start_url : string) :
  exists (s : Depth.summary) (st : Depth.state B) (levels : Z),
    Depth.crawl_depth_limited extract_links cfg b start_url = Some (s, st)
    /\ 0 <= levels
    /\ (forall k : Z,
          Depth.depth_breakdown s !! k
          = if bool_decide (0 <= k < levels)
            then Some (Z.of_nat (length (at_depth k (Depth.summary_results s))))
            else None)
    /\ Depth.max_depth_reached s = Z.max 0 (levels - 1).
Proof.
  destruct (crawl_depth_limited_spec extract_links cfg b start_url)
    as (st & Hcrawl & _ & last_level & d & Hd & _ & _ & Hdr & _).
  exists (Depth.summarize st), st, d. simpl.
  split; [exact Hcrawl|]. split; [exact Hd|]. split.
  - intros k. rewrite lookup_fmap, Hdr. by case_bool_decide.
  - apply max_key_range. intros k. rewrite Hdr.
    case_bool_decide; split; intros Hk; try done; by destruct Hk.
Qed.

(** X2. With [max_depth = 0] and [max_pages_per_level >= 1] only the seed
    is fetched, whatever links its page has: the run has the one page result
    of the seed, and the counts per depth are 1 at depth 0. *)
Theorem max_depth_zero_fetches_seed_only {B : Type} `{CrawlBackend B}
    (extract_links : string -> list string) (cfg : Depth.config) (b : B)
    (start_url : string) :
  Depth.max_depth cfg = 0 ->
  1 <= Depth.max_pages_per_level cfg ->
  exists (s : Depth.summary) (st : Depth.state B),
    Depth.crawl_depth_limited extract_links cfg b start_url = Some (s, st)
    /\ Depth.summary_results s = [result_of 0 start_url (backend_crawl b start_url).2]
    /\ crawls (Depth.trace st) = [start_url]
    /\ Depth.depth_breakdown s = {[0 := 1]}
    /\ Depth.max_depth_reached s = 0.
Proof.
  destruct cfg as [max_depth max_pages]. simpl. intros -> Hcap.
  unfold Depth.crawl_depth_limited, Depth.run, Depth.enough_fuel. simpl.
  rewrite bool_decide_eq_false_2 by apply not_elem_of_empty.
  destruct (Z.leb_spec max_pages 0); [lia|].
  unfold Depth.attempt. simpl.
  destruct (backend_crawl b start_url) as [b' [markdown elapsed|message]]; simpl;
    (eexists _, _; split; [reflexivity|]); simpl;
    (split; [reflexivity|]); (split; [reflexivity|]);
    (split; [by rewrite fmap_insert, fmap_empty|]);
    apply (max_key_range _ 1); intros k;
    (destruct (decide (k = 0)) as [->|Hk];
     [rewrite lookup_insert_eq; split; [lia|by eexists]
     |rewrite lookup_insert_ne, lookup_empty by done;
      split; [by intros [? ?]|lia]]).
Qed.

(** X3. In a run on a new crawler the page results are in the order of
    their depths: every page result of depth [d] is recorded before any page
    result of a greater depth. *)
Theorem results_are_ordered_by_depth {B : Type} `{CrawlBackend B}
    (extract_links : string -> list string) (cfg : Depth.config) (b : B)
    (start_url : string) :
  exists (s : Depth.summary) (st : Depth.state B),
    Depth.crawl_depth_limited extract_links cfg b start_url = Some (s, st)
    /\ StronglySorted Z.le (map r_depth (Depth.summary_results s)).
Proof.
  destruct (crawl_depth_limited_spec extract_links cfg b start_url)
    as (st & Hcrawl & _ & last_level & d & _ & _ & _ & _ & _ & Hsorted).
  by exists (Depth.summarize st), st.
Qed.

(** ** A level with failing fetches *)

Section DepthFailure.
Context {B : Type} `{CrawlBackend B}.
Variable extract_links : string -> list string.
Variable cfg : Depth.config.

Local Abbreviation attempt := (Depth.attempt extract_links cfg).
Local Abbreviation for_level := (Depth.for_level extract_links cfg).
Local Abbreviation while_levels := (Depth.while_levels extract_links cfg).
Local Abbreviation state := (Depth.state B).

Lemma for_level_results_grow (depth : Z) (items : list (string * Z)) (st : state) :
  (length (Depth.level_results st)
   <= length (Depth.level_results (for_level depth items st)))%nat.
Proof.
  apply (for_level_inv extract_links cfg (fun st' =>
    (length (Depth.level_results st) <= length (Depth.level_results st'))%nat));
    [|done].
  intros st' url Hle _ _.
  destruct (attempt_results extract_links cfg depth url st') as (_ & -> & _).
  rewrite length_app. simpl. lia.
Qed.

(** A level with an item that is not crawled yet, entered below the cap,
    dispatches an item. *)
Lemma for_level_dispatches (depth : Z) (items : list (string * Z)) :
  forall st : state,
    Depth.pages_at_level st < Depth.max_pages_per_level cfg ->
    (exists item, item ∈ items /\ item.1 ∉ Depth.crawled_urls st) ->
    (length (Depth.level_results st)
     < length (Depth.level_results (for_level depth items st)))%nat.
Proof.
  induction items as [|[url url_depth] items IH]; intros st Hcap (item & Hin & Hnew).
  - by apply elem_of_nil in Hin.
  - simpl. case_bool_decide as Hcrawled.
    + apply IH; [done|]. exists item. split; [|done].
      apply elem_of_cons in Hin as [->|Hin]; [done|done].
    + destruct (Z.leb_spec (Depth.max_pages_per_level cfg) (Depth.pages_at_level st));
        [lia|].
      pose proof (for_level_results_grow depth items (attempt depth url st)) as Hgrow.
      destruct (attempt_results extract_links cfg depth url st) as (_ & Hlevel & _).
      rewrite Hlevel, length_app in Hgrow. simpl in Hgrow. lia.
Qed.

(** Links are queued only below [max_depth]. *)
Lemma for_level_queue_depth (depth : Z) (items : list (string * Z)) (st : state) :
  Depth.next_level (for_level depth items (Depth.enter_level st)) <> [] ->
  depth < Depth.max_depth cfg.
Proof.
  apply (for_level_inv extract_links cfg (fun st' =>
    Depth.next_level st' <> [] -> depth < Depth.max_depth cfg)); [|done].
  intros st' url Hst' _ _.
  destruct (attempt_next_level extract_links cfg depth url st')
    as (links & -> & Hlinks & _).
  destruct links as [|link links]; [by rewrite app_nil_r|].
  intros _. by apply Hlinks.
Qed.

(** The loop from a level of depth [d], with fuel for the levels up to
    [max_depth]: it ends; the results it adds have depths from [d] on; it
    leaves the buckets below [d] alone; and it dispatches at depth [d] when
    the level holds a URL that is not crawled yet. *)
Lemma while_levels_advances (fuel : nat) :
  forall (level : list (string * Z)) (d : Z) (st : state),
    Forall (fun item => item.2 = d) level ->
    (Z.to_nat (Depth.max_depth cfg + 1 - d) <= fuel)%nat ->
    exists (final : state) (later : list page_result),
      while_levels fuel level st = Some final
      /\ Depth.all_results final = Depth.all_results st ++ later
      /\ Forall (fun r => d <= r_depth r) later
      /\ (forall k, k < d ->
            Depth.depth_results final !! k = Depth.depth_results st !! k)
      /\ (d <= Depth.max_depth cfg -> 0 < Depth.max_pages_per_level cfg ->
          (exists item, item ∈ level /\ item.1 ∉ Depth.crawled_urls st) ->
          exists r, r ∈ later /\ r_depth r = d).
Proof.
  induction fuel as [|fuel IH]; intros level d st Hlevel Hfuel.
  - exists st, []. rewrite app_nil_r.
    destruct level as [|[url d'] rest].
    + simpl. split; [done|]. split; [done|]. split; [constructor|]. split; [done|].
      intros _ _ (item & Hin & _). by apply elem_of_nil in Hin.
    + apply Forall_cons in Hlevel as [Hd _]. simpl in Hd. subst d'.
      rewrite while_levels_beyond by lia.
      split; [done|]. split; [done|]. split; [constructor|]. split; [done|]. lia.
  - destruct level as [|[url d'] rest].
    + exists st, []. rewrite app_nil_r. simpl.
      split; [done|]. split; [done|]. split; [constructor|]. split; [done|].
      intros _ _ (item & Hin & _). by apply elem_of_nil in Hin.
    + pose proof Hlevel as Hall.
      apply Forall_cons in Hlevel as [Hd _]. simpl in Hd. subst d'.
      destruct (Z.ltb_spec (Depth.max_depth cfg) d) as [Hbeyond|Hwithin].
      { exists st, []. rewrite app_nil_r, while_levels_beyond by lia.
        split; [done|]. split; [done|]. split; [constructor|]. split; [done|]. lia. }
      set (st' := for_level d ((url, d) :: rest) (Depth.enter_level st)).
      pose proof (level_inv_for_level extract_links cfg d ((url, d) :: rest) st)
        as (Hres & Hdepth & Hdr & Hnext & _).
      fold st' in Hres, Hdepth, Hdr, Hnext. simpl in Hres, Hdr.
      destruct (IH (Depth.next_level st') (d + 1) (Depth.leave_level d st'))
        as (final & later & Hrun & Hlater & Hdepths & Hbuckets & _);
        [exact Hnext|lia|].
      exists final, (Depth.level_results st' ++ later).
      split; [|split; [|split; [|split]]].
      * change (while_levels (S fuel) ((url, d) :: rest) st)
          with (if Depth.max_depth cfg <? d then Some st
                else while_levels fuel (Depth.next_level st')
                       (Depth.leave_level d st')).
        by destruct (Z.ltb_spec (Depth.max_depth cfg) d); [lia|].
      * rewrite Hlater. unfold Depth.leave_level. simpl.
        by rewrite Hres, app_assoc.
      * apply Forall_app. split.
        -- eapply Forall_impl; [exact Hdepth|]. simpl. lia.
        -- eapply Forall_impl; [exact Hdepths|]. simpl. lia.
      * intros k Hk. rewrite Hbuckets by lia. unfold Depth.leave_level. simpl.
        rewrite lookup_insert_ne by lia. by rewrite Hdr.
      * intros _ Hcap Hitem.
        pose proof (for_level_dispatches d ((url, d) :: rest) (Depth.enter_level st))
          as Hgrow.
        fold st' in Hgrow. simpl in Hgrow. specialize (Hgrow Hcap Hitem).
        destruct (Depth.level_results st') as [|r results] eqn:Hresults;
          [simpl in Hgrow; lia|].
        exists r. split; [apply elem_of_app; left; apply elem_of_cons; by left|].
        by apply Forall_cons in Hdepth as [Hr _].
Qed.


(** C6, as amended. A level with the items [(url, depth) :: rest], whose
    URLs are distinct, not crawled yet and no more than
    [max_pages_per_level], entered at a depth within [max_depth]: every item
    is dispatched, and the level has one page result per item, in order. The
    result of a fetch that raised is the failed record, with the title
    ["Failed"], no content, no duration and the message of the exception;
    the result of a fetch that returned is the record of its page. As many
    results are failed as fetches raised (so one, when one fetch raised).
    The run goes on and ends: the level's results are followed by the
    results of deeper levels only, the bucket of the depth is the level's
    results, and when the next level holds a link that is not crawled yet a
    page is dispatched at the next depth. The links of the pages that were
    fetched are in the next level unless they have been crawled. *)
Theorem single_failure_does_not_abort (fuel : nat) (url : string) (depth : Z)
    (rest : list (string * Z)) (st : state) :
  let items := (url, depth) :: rest in
  let outcomes := fetch_all (Depth.backend st) items.*1 in
  let st' := for_level depth items (Depth.enter_level st) in
  NoDup items.*1 ->
  (forall u, u ∈ items.*1 -> u ∉ Depth.crawled_urls st) ->
  Z.of_nat (length items) <= Depth.max_pages_per_level cfg ->
  depth <= Depth.max_depth cfg ->
  (Z.to_nat (Depth.max_depth cfg + 1 - depth) <= fuel)%nat ->
  length (Depth.level_results st') = length items
  /\ (forall (i : nat) (u : string),
        items.*1 !! i = Some u ->
        exists outcome,
          outcomes !! i = Some outcome
          /\ Depth.level_results st' !! i
             = Some (match outcome with
                     | Fetched markdown elapsed =>
                         PageResult u depth (extract_title 80 markdown)
                           (content_length_of markdown) elapsed true None
                     | Raised message =>
                         PageResult u depth "Failed" 0 0%Q false (Some message)
                     end))
  /\ length (failures (Depth.level_results st'))
     = length (List.filter is_raised outcomes)
  /\ (exists (final : state) (later : list page_result),
        while_levels fuel items st = Some final
        /\ Depth.all_results final
           = Depth.all_results st ++ Depth.level_results st' ++ later
        /\ Forall (fun r => depth < r_depth r) later
        /\ Depth.depth_results final !! depth = Some (Depth.level_results st')
        /\ (forall link,
              (link, depth + 1) ∈ Depth.next_level st' ->
              link ∉ Depth.crawled_urls st' ->
              exists r, r ∈ later /\ r_depth r = depth + 1))
  /\ (depth < Depth.max_depth cfg ->
      forall (i : nat) (u link : string) (markdown : option string) (elapsed : Q),
        items.*1 !! i = Some u ->
        outcomes !! i = Some (Fetched markdown elapsed) ->
        link ∈ firstn 5 (extract_links (markdown_or_empty markdown)) ->
        link ∉ Depth.crawled_urls st' ->
        (link, depth + 1) ∈ Depth.next_level st').
Proof.
  intros items outcomes st' Hnodup Hnew Hcap Hdepth Hfuel.
  assert (Hlevel : Depth.level_results st' = zip_with (result_of depth) items.*1 outcomes).
  { unfold st'. rewrite for_level_all_dispatched; try done; simpl; lia. }
  assert (Hlen : length items.*1 = length outcomes).
  { unfold outcomes. by rewrite fetch_all_length. }
  split; [|split; [|split; [|split]]].
  - rewrite Hlevel, length_zip_with, <- Hlen, length_fmap. lia.
  - intros i u Hu.
    destruct (outcomes !! i) as [outcome|] eqn:Hout.
    + exists outcome. split; [done|].
      rewrite Hlevel, lookup_zip_with, Hu. simpl. rewrite Hout. simpl.
      by destruct outcome.
    + apply lookup_ge_None in Hout. apply lookup_lt_Some in Hu. lia.
  - rewrite Hlevel. by apply failures_zip.
  - pose proof (level_inv_for_level extract_links cfg depth items st)
      as (Hres & _ & _ & Hnext & _).
    fold st' in Hres, Hnext. simpl in Hres.
    destruct fuel as [|fuel]; [lia|].
    destruct (while_levels_advances fuel (Depth.next_level st') (depth + 1)
                (Depth.leave_level depth st'))
      as (final & later & Hrun & Hlater & Hdepths & Hbuckets & Hadvance);
      [exact Hnext|lia|].
    exists final, later. split; [|split; [|split; [|split]]].
    + change (while_levels (S fuel) items st)
        with (if Depth.max_depth cfg <? depth then Some st
              else while_levels fuel (Depth.next_level st')
                     (Depth.leave_level depth st')).
      by destruct (Z.ltb_spec (Depth.max_depth cfg) depth); [lia|].
    + rewrite Hlater. unfold Depth.leave_level. simpl. by rewrite Hres, app_assoc.
    + eapply Forall_impl; [exact Hdepths|]. simpl. lia.
    + rewrite Hbuckets by lia. unfold Depth.leave_level. simpl.
      apply lookup_insert_eq.
    + intros link Hlink Hnot. apply Hadvance.
      * assert (depth < Depth.max_depth cfg); [|lia].
        apply (for_level_queue_depth depth items st). fold st'.
        intros Hnil. rewrite Hnil in Hlink. by apply elem_of_nil in Hlink.
      * simpl in Hcap. lia.
      * exists (link, depth + 1). by split.
  - intros Hlt i u link markdown elapsed Hu Hout Hlink Hnot.
    unfold st'. eapply for_level_enqueues; try eassumption; try done; simpl; lia.
Qed.

End DepthFailure.

(** ** The claims on concrete webs *)

(** C1 is not what the code does: the article b, linked from the front
    page and from the article c, cannot be fetched; it is handed to the
    backend at depth 1 and again at depth 2, has two page results, and is
    not in [crawled_urls] at the end. This is so in whichever order the set
    of the two links of the front page enumerates. *)
Lemma failed_url_is_fetched_again :
  exists (s : Depth.summary) (st : Depth.state (string -> fetch_outcome)),
    crawl_web guardian_links (Depth.Config 2 2) (serve web_dead_link) home
    = Some (s, st)
    /\ map (fun r => (r_url r, r_depth r, r_success r)) (Depth.summary_results s)
       = [(home, 0, true); (article "b", 1, false); (article "c", 1, true);
          (article "b", 2, false)]
    /\ crawls (Depth.trace st) = [home; article "b"; article "c"; article "b"]
    /\ elements (Depth.crawled_urls st) = [article "c"; home]
    /\ exists (s' : Depth.summary) (st' : Depth.state (string -> fetch_outcome)),
         crawl_web guardian_links_descending (Depth.Config 2 2)
           (serve web_dead_link) home
         = Some (s', st')
         /\ map (fun r => (r_url r, r_depth r, r_success r)) (Depth.summary_results s')
            = [(home, 0, true); (article "c", 1, true); (article "b", 1, false);
               (article "b", 2, false)]
         /\ elements (Depth.crawled_urls st') = [article "c"; home].
Proof.
  eexists _, _. split; [vm_compute; reflexivity|].
  split; [|split; [|split]]; try (vm_compute; reflexivity).
  eexists _, _. split; [vm_compute; reflexivity|].
  split; vm_compute; reflexivity.
Qed.


(** C3 is not what the code does: in the scenario, with a fetch of D that
    raises, D is handed to the backend and the summary counts four pages. *)
Lemma scenario_dispatches_D :
  exists (s : Depth.summary) (st : Depth.state (string -> fetch_outcome)),
    crawl_web scenario_links (Depth.Config 2 2) (scenario_web (Raised "timeout")) "A"
    = Some (s, st)
    /\ crawls (Depth.trace st) = ["A"; "B"; "C"; "D"]
    /\ map r_url (Depth.summary_results s) = ["A"; "B"; "C"; "D"]
    /\ Depth.total_pages s = 4.
Proof.
  eexists _, _. split; [vm_compute; reflexivity|].
  split; [|split]; vm_compute; reflexivity.
Qed.

(** C3, as amended. In the scenario the failed fetch of C does not count
    for the cap of 2, so D is dispatched as well: the run fetches A, B, C
    and D. When the fetch of D raises: [total_pages = 4],
    [successful_pages = 2], [max_depth_reached = 1], the counts per depth
    are 1 and 3, and [crawled_urls] is A and B. When the fetch of D returns
    a result without markdown: the same with [successful_pages = 3] and D in
    [crawled_urls]. C is in [crawled_urls] in neither case. *)
Theorem scenario_fetches_four_pages (message : string) (elapsed : Q) :
  (exists (s : Depth.summary) (st : Depth.state (string -> fetch_outcome)),
      crawl_web scenario_links (Depth.Config 2 2) (scenario_web (Raised message)) "A"
      = Some (s, st)
      /\ map (fun r => (r_url r, r_depth r, r_success r)) (Depth.summary_results s)
         = [("A", 0, true); ("B", 1, true); ("C", 1, false); ("D", 1, false)]
      /\ crawls (Depth.trace st) = ["A"; "B"; "C"; "D"]
      /\ Depth.total_pages s = 4
      /\ Depth.successful_pages s = 2
      /\ Depth.max_depth_reached s = 1
      /\ map_to_list (Depth.depth_breakdown s) = [(1, 3); (0, 1)]
      /\ elements (Depth.crawled_urls st) = ["A"; "B"])
  /\ (exists (s : Depth.summary) (st : Depth.state (string -> fetch_outcome)),
        crawl_web scenario_links (Depth.Config 2 2)
          (scenario_web (Fetched None elapsed)) "A"
        = Some (s, st)
        /\ map (fun r => (r_url r, r_depth r, r_success r)) (Depth.summary_results s)
           = [("A", 0, true); ("B", 1, true); ("C", 1, false); ("D", 1, true)]
        /\ crawls (Depth.trace st) = ["A"; "B"; "C"; "D"]
        /\ Depth.total_pages s = 4
        /\ Depth.successful_pages s = 3
        /\ Depth.max_depth_reached s = 1
        /\ map_to_list (Depth.depth_breakdown s) = [(1, 3); (0, 1)]
        /\ elements (Depth.crawled_urls st) = ["A"; "B"; "D"]).
Proof.
  split; (eexists _, _; split; [vm_compute; reflexivity|]);
    repeat split; vm_compute; reflexivity.
Qed.



(** C9 is not what the code does: with [max_pages_per_level = 0] the
    crawl returns a summary, as for any other configuration. *)
Lemma invalid_config_is_not_rejected :
  exists (s : Depth.summary) (st : Depth.state (string -> fetch_outcome)),
    crawl_web guardian_links (Depth.Config 2 0) (serve web_mutual) home
    = Some (s, st)
    /\ Depth.total_pages s = 0
    /\ map_to_list (Depth.depth_breakdown s) = [(0, 0)].
Proof.
  eexists _, _. split; [vm_compute; reflexivity|].
  split; vm_compute; reflexivity.
Qed.

(** C4, on the code: the articles b and c both link to d; after the level
    of depth 1 the next level holds d twice, and d, whose fetch raises, is
    handed to the backend twice at depth 2, in whichever order the set of
    the links b and c enumerates. *)
Theorem next_level_holds_a_link_twice :
  let web := serve web_diamond in
  let cfg := Depth.Config 2 2 in
  let st0 := @Depth.for_level _ table_backend guardian_links cfg 0 [(home, 0)]
               (Depth.enter_level (Depth.begin_run (Depth.init web))) in
  let st1 := @Depth.for_level _ table_backend guardian_links cfg 1
               (Depth.next_level st0)
               (Depth.enter_level (Depth.leave_level 0 st0)) in
  Depth.next_level st0 = [(article "b", 1); (article "c", 1)]
  /\ Depth.next_level st1 = [(article "d", 2); (article "d", 2)]
  /\ (exists (s : Depth.summary) (st : Depth.state (string -> fetch_outcome)),
        crawl_web guardian_links cfg web home = Some (s, st)
        /\ crawls (Depth.trace st)
           = [home; article "b"; article "c"; article "d"; article "d"])
  /\ (exists (s : Depth.summary) (st : Depth.state (string -> fetch_outcome)),
        crawl_web guardian_links_descending cfg web home = Some (s, st)
        /\ crawls (Depth.trace st)
           = [home; article "c"; article "b"; article "d"; article "d"]).
Proof.
  split; [vm_compute; reflexivity|]. split; [vm_compute; reflexivity|].
  split; eexists _, _; split; vm_compute; reflexivity.
Qed.

(** C10. On the web where b and c link to each other, the level of depth
    2 holds only an article that was fetched at depth 1: the bucket of depth
    2 is recorded with no page result, its count is 0, and
    [max_depth_reached] is 2 although no page result has depth 2 (in
    whichever order the set of the links b and c enumerates). In every run on a new crawler
    the buckets are those of the depths of the levels that were processed,
    each counting the page results of its depth, and [max_depth_reached]
    is the depth of the last of these levels. *)
Theorem empty_bucket_is_counted :
  (exists (s : Depth.summary) (st : Depth.state (string -> fetch_outcome)),
      crawl_web guardian_links (Depth.Config 2 5) (serve web_mutual) home
      = Some (s, st)
      /\ Depth.results_by_depth s !! 2 = Some []
      /\ Depth.depth_breakdown s !! 2 = Some 0
      /\ Depth.max_depth_reached s = 2
      /\ at_depth 2 (Depth.summary_results s) = []
      /\ map (fun r => (r_url r, r_depth r)) (Depth.summary_results s)
         = [(home, 0); (article "b", 1); (article "c", 1)])
  /\ (exists (s : Depth.summary) (st : Depth.state (string -> fetch_outcome)),
        crawl_web guardian_links_descending (Depth.Config 2 5) (serve web_mutual) home
        = Some (s, st)
        /\ Depth.depth_breakdown s !! 2 = Some 0
        /\ Depth.max_depth_reached s = 2
        /\ map (fun r => (r_url r, r_depth r)) (Depth.summary_results s)
           = [(home, 0); (article "c", 1); (article "b", 1)])
  /\ (forall (extract_links : string -> list string) (cfg : Depth.config)
             (web : string -> fetch_outcome) (start_url : string),
        exists (s : Depth.summary) (st : Depth.state (string -> fetch_outcome))
               (levels : Z),
          crawl_web extract_links cfg web start_url = Some (s, st)
          /\ 0 <= levels
          /\ (forall k : Z,
                Depth.depth_breakdown s !! k
                = if bool_decide (0 <= k < levels)
                  then Some (Z.of_nat (length (at_depth k (Depth.summary_results s))))
                  else None)
          /\ Depth.max_depth_reached s = Z.max 0 (levels - 1)).
Proof.
  split; [|split].
  - eexists _, _. split; [vm_compute; reflexivity|].
    repeat split; vm_compute; reflexivity.
  - eexists _, _. split; [vm_compute; reflexivity|].
    repeat split; vm_compute; reflexivity.
  - intros extract_links cfg web start_url.
    apply (@summary_depths _ table_backend).
Qed.



(** [invalid_config_gives_empty_summary] at [max_pages_per_level = 0]. *)
Lemma invalid_config_on_mutual_web :
  Depth.max_pages_per_level (Depth.Config 2 0) < 1
  /\ exists (s : Depth.summary) (st : Depth.state (string -> fetch_outcome)),
       crawl_web guardian_links (Depth.Config 2 0) (serve web_mutual) home
       = Some (s, st)
       /\ Depth.total_pages s = 0
       /\ Depth.successful_pages s = 0
       /\ Depth.summary_results s = []
       /\ Depth.max_depth_reached s = 0
       /\ Depth.trace st = []
       /\ Depth.backend st = serve web_mutual
       /\ Depth.crawled_urls st = ∅.
Proof.
  split; [reflexivity|].
  apply (@invalid_config_gives_empty_summary _ table_backend guardian_links
           (Depth.Config 2 0) (serve web_mutual) home).
  left. reflexivity.
Defined.

(** C6 is not what the code does: on [web_wide_level], with
    [max_pages_per_level = 2], the level of depth 1 has the four items b, c,
    d and e, and exactly one of the four fetches, that of b, raises; the
    level has three page results, not four: after the failed b, the pages c
    and d reach the cap, and e is dropped. *)
Lemma level_over_the_cap_is_cut :
  let cfg := Depth.Config 1 2 in
  let items := Depth.next_level after_wide_front_page in
  let st' := @Depth.for_level _ table_backend guardian_links cfg 1 items
               (Depth.enter_level after_wide_front_page) in
  items = [(article "b", 1); (article "c", 1); (article "d", 1); (article "e", 1)]
  /\ map is_raised
       (@fetch_all _ table_backend (Depth.backend after_wide_front_page) items.*1)
     = [true; false; false; false]
  /\ map (fun r => (r_url r, r_success r)) (Depth.level_results st')
     = [(article "b", false); (article "c", true); (article "d", true)]
  /\ exists (s : Depth.summary) (st : Depth.state (string -> fetch_outcome)),
       crawl_web guardian_links cfg (serve web_wide_level) home = Some (s, st)
       /\ map (fun r => (r_url r, r_depth r, r_success r)) (Depth.summary_results s)
          = [(home, 0, true); (article "b", 1, false); (article "c", 1, true);
             (article "d", 1, true)]
       /\ Depth.depth_breakdown s !! 1 = Some 3.
Proof.
  intros cfg items st'.
  split; [vm_compute; reflexivity|]. split; [vm_compute; reflexivity|].
  split; [vm_compute; reflexivity|].
  eexists _, _. split; [vm_compute; reflexivity|].
  split; vm_compute; reflexivity.
Qed.

(** [single_failure_does_not_abort] on the level of b and c of
    [web_dead_link]: the fetch of b raises, the fetch of c returns; the
    level has the two results, the first the failed record of b, and the run
    ends after a dispatch at depth 2, of b, the link of c. *)
Lemma single_failure_on_dead_link :
  let cfg := Depth.Config 2 2 in
  let items := [(article "b", 1); (article "c", 1)] in
  let st' := @Depth.for_level _ table_backend guardian_links cfg 1 items
               (Depth.enter_level after_front_page) in
  map is_raised (@fetch_all _ table_backend (Depth.backend after_front_page) items.*1)
  = [true; false]
  /\ length (Depth.level_results st') = 2%nat
  /\ Depth.level_results st' !! 0%nat
     = Some (PageResult (article "b") 1 "Failed" 0 0%Q false (Some "HTTP 404"))
  /\ length (failures (Depth.level_results st')) = 1%nat
  /\ exists (final : Depth.state (string -> fetch_outcome)) (later : list page_result),
       @Depth.while_levels _ table_backend guardian_links cfg 2 items after_front_page
       = Some final
       /\ Depth.all_results final
          = Depth.all_results after_front_page ++ Depth.level_results st' ++ later
       /\ Depth.depth_results final !! 1 = Some (Depth.level_results st')
       /\ exists r, r ∈ later /\ r_depth r = 2.
Proof.
  intros cfg items st'.
  assert (Hnodup : NoDup items.*1).
  { apply (bool_decide_unpack _). vm_compute. exact I. }
  assert (Hnew : forall u, u ∈ items.*1 -> u ∉ Depth.crawled_urls after_front_page).
  { apply Forall_forall. apply (bool_decide_unpack _). vm_compute. exact I. }
  assert (Hcap : Z.of_nat (length items) <= Depth.max_pages_per_level cfg).
  { vm_compute. discriminate. }
  assert (Hdepth : 1 <= Depth.max_depth cfg).
  { vm_compute. discriminate. }
  assert (Hfuel : (Z.to_nat (Depth.max_depth cfg + 1 - 1) <= 2)%nat).
  { vm_compute. lia. }
  destruct (@single_failure_does_not_abort _ table_backend guardian_links cfg 2
              (article "b") 1 [(article "c", 1)] after_front_page
              Hnodup Hnew Hcap Hdepth Hfuel)
    as (Hlen & Hrecord & Hfail
        & (final & later & Hrun & Hall & _ & Hbucket & Hnext) & _).
  split; [vm_compute; reflexivity|]. split; [exact Hlen|]. split; [|split].
  - destruct (Hrecord 0%nat (article "b") eq_refl) as (outcome & Hout & Hres).
    vm_compute in Hout. injection Hout as <-. exact Hres.
  - etransitivity; [exact Hfail|]. vm_compute. reflexivity.
  - exists final, later. split; [exact Hrun|]. split; [exact Hall|].
    split; [exact Hbucket|]. apply (Hnext (article "b")).
    + apply (bool_decide_unpack _). vm_compute. exact I.
    + apply (bool_decide_unpack _). vm_compute. exact I.
Defined.

(** [max_depth_zero_fetches_seed_only] on the web where b and c link to
    each other. *)
Lemma max_depth_zero_on_mutual_web :
  exists (s : Depth.summary) (st : Depth.state (string -> fetch_outcome)),
    crawl_web guardian_links (Depth.Config 0 2) (serve web_mutual) home = Some (s, st)
    /\ map r_url (Depth.summary_results s) = [home]
    /\ Depth.depth_breakdown s = {[0 := 1]}.
Proof.
  destruct (@max_depth_zero_fetches_seed_only _ table_backend guardian_links
              (Depth.Config 0 2) (serve web_mutual) home)
    as (s & st & Hcrawl & Hresults & _ & Hcounts & _).
  - reflexivity.
  - vm_compute. discriminate.
  - exists s, st. split; [exact Hcrawl|]. split; [|exact Hcounts].
    rewrite Hresults. reflexivity.
Defined.

(** ** More on the recursive controller: what it crawls and returns *)

(** The fields of a state that is given by its constructor. *)
Ltac rec_fields :=
  cbn [Recursive.backend Recursive.crawled_urls Recursive.queue
       Recursive.crawl_results Recursive.trace].

Section RecursiveCounts.
Context {B : Type} `{CrawlBackend B}.
Variable extract_links : string -> string -> list string.
Hypothesis extract_capped :
  forall content base_url, (length (extract_links content base_url) <= 5)%nat.
Variable cfg : Recursive.config.

Local Abbreviation attempt := (Recursive.attempt extract_links cfg).
Local Abbreviation iteration := (Recursive.iteration extract_links cfg).
Local Abbreviation while_queue := (Recursive.while_queue extract_links cfg).
Local Abbreviation state := (Recursive.state B).

(** What holds of the object, the queue and the results at any point of
    a run on a new crawler. *)
Definition count_inv (st : state) : Prop :=
  Recursive.crawled_urls st
    = list_to_set (map Recursive.r_url (rec_successes (Recursive.crawl_results st)))
  /\ rec_no_refetch (Recursive.crawl_results st)
  /\ size (Recursive.crawled_urls st)
     = length (rec_successes (Recursive.crawl_results st))
  /\ Z.of_nat (size (Recursive.crawled_urls st)) <= Z.max 0 (Recursive.max_pages cfg)
  /\ (length (Recursive.crawl_results st) + length (Recursive.queue st)
      <= 1 + 5 * length (rec_successes (Recursive.crawl_results st)))%nat
  /\ crawls (Recursive.trace st) = map Recursive.r_url (Recursive.crawl_results st).

Lemma rec_successes_snoc (l : list Recursive.page_result) (r : Recursive.page_result) :
  rec_successes (l ++ [r])
  = rec_successes l ++ (if Recursive.r_success r then [r] else []).
Proof.
  unfold rec_successes. rewrite List.filter_app. simpl.
  by destruct (Recursive.r_success r).
Qed.

Lemma crawls_app (t1 t2 : list event) : crawls (t1 ++ t2) = crawls t1 ++ crawls t2.
Proof.
  induction t1 as [|[url|seconds] t1 IH]; simpl; [done| |done]. by rewrite IH.
Qed.

Lemma crawls_sleep_events (rcfg : Recursive.config) :
  crawls (Recursive.sleep_events rcfg) = [].
Proof. unfold Recursive.sleep_events. by destruct (Qle_bool _ _). Qed.

Lemma rec_no_refetch_snoc (l : list Recursive.page_result) (r : Recursive.page_result) :
  rec_no_refetch l ->
  (forall r0, r0 ∈ l -> Recursive.r_success r0 = true ->
              Recursive.r_url r <> Recursive.r_url r0) ->
  rec_no_refetch (l ++ [r]).
Proof.
  intros Hno Hnew i j ri rj Hi Hj Hlt Hok.
  destruct (decide (j < length l)%nat) as [Hjl|Hjl].
  - rewrite lookup_app_l in Hi by lia. rewrite lookup_app_l in Hj by lia.
    by eapply Hno.
  - apply lookup_lt_Some in Hj as Hjlt. rewrite length_app in Hjlt. simpl in Hjlt.
    rewrite lookup_app_r in Hj by lia.
    replace (j - length l)%nat with 0%nat in Hj by lia. injection Hj as <-.
    rewrite lookup_app_l in Hi by lia.
    apply Hnew; [|done]. by eapply list_elem_of_lookup_2.
Qed.

Lemma count_inv_crawled (st : state) (r : Recursive.page_result) :
  count_inv st -> r ∈ Recursive.crawl_results st -> Recursive.r_success r = true ->
  Recursive.r_url r ∈ Recursive.crawled_urls st.
Proof.
  intros (Hc & _) Hin Hok. rewrite Hc.
  apply elem_of_list_to_set, list_elem_of_fmap. exists r. split; [done|].
  apply list_elem_of_In, filter_In. split; [by apply list_elem_of_In|done].
Qed.

Lemma count_inv_attempt (url : string) (st : state) :
  count_inv st -> url ∉ Recursive.crawled_urls st ->
  Z.of_nat (size (Recursive.crawled_urls st)) < Recursive.max_pages cfg ->
  (length (Recursive.crawl_results st) + S (length (Recursive.queue st))
   <= 1 + 5 * length (rec_successes (Recursive.crawl_results st)))%nat ->
  count_inv (attempt url st).
Proof.
  intros Hinv Hnew Hbelow Hlen.
  pose proof Hinv as (Hc & Hno & Hsize & Hmax & _ & Htrace).
  assert (Hfresh : forall r, Recursive.r_url r = url ->
            forall r0, r0 ∈ Recursive.crawl_results st ->
                       Recursive.r_success r0 = true ->
                       Recursive.r_url r <> Recursive.r_url r0).
  { intros r Hr r0 Hin Hok Heq. apply Hnew. rewrite <- Hr, Heq.
    by eapply count_inv_crawled. }
  unfold Recursive.attempt.
  destruct (backend_crawl (Recursive.backend st) url) as [b [markdown elapsed|message]];
    unfold count_inv; simpl; rewrite rec_successes_snoc; simpl.
  - rewrite map_app, list_to_set_app_L, <- Hc. simpl.
    rewrite union_empty_r_L, !length_app. simpl.
    rewrite size_union by (apply disjoint_singleton_r; exact Hnew).
    rewrite size_singleton, crawls_app. simpl.
    rewrite crawls_sleep_events, map_app, Htrace. simpl.
    pose proof (fold_enqueue_length (Recursive.crawled_urls st ∪ {[url]})
                  (extract_links (markdown_or_empty markdown) url)
                  (Recursive.queue st)) as Hq.
    pose proof (extract_capped (markdown_or_empty markdown) url) as Hfive.
    split; [done|]. split; [by apply rec_no_refetch_snoc, Hfresh|].
    split; [lia|]. split; [lia|]. split; [|done].
    destruct (Recursive.below_max_pages _ _); lia.
  - rewrite app_nil_r, length_app, crawls_app, map_app, Htrace. simpl.
    split; [done|]. split; [by apply rec_no_refetch_snoc, Hfresh|].
    split; [done|]. split; [done|]. split; [lia|done].
Qed.

Lemma count_inv_iteration (st st' : state) :
  count_inv st -> iteration st = Some st' -> count_inv st'.
Proof.
  intros Hinv. pose proof Hinv as (Hc & Hno & Hsize & Hmax & Hlen & Htrace).
  unfold Recursive.iteration.
  destruct (Recursive.queue st) as [|url rest] eqn:Hqueue; [done|].
  unfold Recursive.below_max_pages at 1.
  destruct (Z.ltb_spec (Z.of_nat (size (Recursive.crawled_urls st)))
              (Recursive.max_pages cfg)) as [Hlt|]; [|done].
  simpl in Hlen.
  assert (Hrest : count_inv (Recursive.State (Recursive.backend st)
                               (Recursive.crawled_urls st) rest
                               (Recursive.crawl_results st) (Recursive.trace st))).
  { unfold count_inv. simpl. split; [done|]. split; [done|]. split; [done|].
    split; [done|]. split; [lia|done]. }
  case_bool_decide as Hin; intros [= <-]; [exact Hrest|].
  apply count_inv_attempt; simpl; try done; lia.
Qed.

Lemma count_inv_while (fuel : nat) :
  forall st st' : state, count_inv st -> while_queue fuel st = Some st' -> count_inv st'.
Proof.
  induction fuel as [|fuel IH]; intros st st' Hinv; simpl;
    destruct (iteration st) as [st1|] eqn:Hit; try done.
  - by intros [= <-].
  - apply IH. by eapply count_inv_iteration.
  - by intros [= <-].
Qed.

Lemma count_inv_init (b : B) (start_url : string) :
  count_inv (Recursive.init b start_url).
Proof.
  unfold count_inv, Recursive.init. rec_fields. rewrite size_empty. split; [done|]. split.
  { intros i j ri rj Hi. by rewrite lookup_nil in Hi. }
  split; [done|]. split; [lia|]. split; [simpl; lia|done].
Qed.

(** The results never get fewer. *)
Lemma iteration_results_grow (st st' : state) :
  iteration st = Some st' ->
  (length (Recursive.crawl_results st) <= length (Recursive.crawl_results st'))%nat.
Proof.
  unfold Recursive.iteration.
  destruct (Recursive.queue st) as [|url rest]; [done|].
  destruct (Recursive.below_max_pages _ _); [|done].
  case_bool_decide; intros [= <-]; simpl; [done|].
  unfold Recursive.attempt. simpl.
  destruct (backend_crawl (Recursive.backend st) url) as [b [markdown elapsed|message]];
    simpl; rewrite length_app; lia.
Qed.

Lemma while_queue_results_grow (fuel : nat) :
  forall st st' : state,
    while_queue fuel st = Some st' ->
    (length (Recursive.crawl_results st) <= length (Recursive.crawl_results st'))%nat.
Proof.
  induction fuel as [|fuel IH]; intros st st'; simpl;
    destruct (iteration st) as [st1|] eqn:Hit; try done.
  - by intros [= <-].
  - intros Hrun. apply IH in Hrun. apply iteration_results_grow in Hit. lia.
  - by intros [= <-].
Qed.

(** With [max_pages < 1] the loop does not run. *)
Lemma iteration_without_pages (b : B) (start_url : string) :
  Recursive.max_pages cfg < 1 -> iteration (Recursive.init b start_url) = None.
Proof.
  intros Hmax. unfold Recursive.iteration, Recursive.below_max_pages, Recursive.init.
  rec_fields. rewrite size_empty.
  by destruct (Z.ltb_spec (Z.of_nat 0) (Recursive.max_pages cfg)); [lia|].
Qed.

(** With [max_pages >= 1] the first iteration fetches the seed. *)
Lemma iteration_with_pages (b : B) (start_url : string) :
  1 <= Recursive.max_pages cfg ->
  exists st : state,
    iteration (Recursive.init b start_url) = Some st
    /\ Recursive.crawl_results st <> [].
Proof.
  intros Hmax. unfold Recursive.iteration, Recursive.below_max_pages, Recursive.init.
  rec_fields. rewrite size_empty.
  destruct (Z.ltb_spec (Z.of_nat 0) (Recursive.max_pages cfg)); [|lia].
  rewrite bool_decide_eq_false_2 by apply not_elem_of_empty.
  eexists. split; [reflexivity|].
  unfold Recursive.attempt. rec_fields.
  by destruct (backend_crawl b start_url) as [b' [markdown elapsed|message]].
Qed.

(** A run on a new crawler returns, with all the invariants; it makes no
    fetch when [max_pages < 1] and at least one otherwise. *)
Lemma crawl_recursive_counts (b : B) (start_url : string) :
  exists st : state,
    Recursive.crawl_recursive extract_links cfg b start_url = Some st
    /\ count_inv st
    /\ (Recursive.max_pages cfg < 1 -> st = Recursive.init b start_url)
    /\ (1 <= Recursive.max_pages cfg -> Recursive.crawl_results st <> []).
Proof.
  destruct (crawl_recursive_spec extract_links extract_capped cfg b start_url)
    as (st & Hrun & _).
  exists st. split; [exact Hrun|]. split; [|split].
  - eapply count_inv_while; [apply count_inv_init|exact Hrun].
  - intros Hmax. unfold Recursive.crawl_recursive in Hrun.
    pose proof (iteration_without_pages b start_url Hmax) as Hit.
    destruct (Recursive.enough_fuel cfg (Recursive.init b start_url)) as [|fuel];
      simpl in Hrun; rewrite Hit in Hrun; by injection Hrun as <-.
  - intros Hmax Hnil. unfold Recursive.crawl_recursive in Hrun.
    destruct (iteration_with_pages b start_url Hmax) as (st1 & Hit & Hres).
    assert (Hfuel : (1 <= Recursive.enough_fuel cfg (Recursive.init b start_url))%nat).
    { unfold Recursive.enough_fuel. simpl. lia. }
    destruct (Recursive.enough_fuel cfg (Recursive.init b start_url)) as [|fuel];
      [lia|].
    simpl in Hrun. rewrite Hit in Hrun.
    apply while_queue_results_grow in Hrun. rewrite Hnil in Hrun.
    destruct (Recursive.crawl_results st1); [done|simpl in Hrun; lia].
Qed.

(** The results before an iteration are a prefix of the results after. *)
Lemma iteration_results_prefix (st st' : state) :
  iteration st = Some st' ->
  Recursive.crawl_results st `prefix_of` Recursive.crawl_results st'.
Proof.
  unfold Recursive.iteration.
  destruct (Recursive.queue st) as [|url rest]; [done|].
  destruct (Recursive.below_max_pages _ _); [|done].
  case_bool_decide; intros [= <-]; rec_fields; [done|].
  unfold Recursive.attempt. rec_fields.
  destruct (backend_crawl (Recursive.backend st) url) as [b [markdown elapsed|message]];
    rec_fields; by apply prefix_app_r.
Qed.

Lemma while_queue_results_prefix (fuel : nat) :
  forall st st' : state,
    while_queue fuel st = Some st' ->
    Recursive.crawl_results st `prefix_of` Recursive.crawl_results st'.
Proof.
  induction fuel as [|fuel IH]; intros st st'; simpl;
    destruct (iteration st) as [st1|] eqn:Hit; try done.
  - by intros [= <-].
  - intros Hrun. etransitivity; [by apply iteration_results_prefix|by apply IH].
  - by intros [= <-].
Qed.

(** The first result, when there is one, is the result of the seed. *)
Lemma first_result_is_seed (b : B) (start_url : string) (st : state) :
  Recursive.crawl_recursive extract_links cfg b start_url = Some st ->
  head (map Recursive.r_url (Recursive.crawl_results st))
  = match Recursive.crawl_results st with [] => None | _ => Some start_url end.
Proof.
  unfold Recursive.crawl_recursive.
  destruct (Recursive.enough_fuel cfg (Recursive.init b start_url)) as [|fuel]; simpl.
  - destruct (iteration (Recursive.init b start_url)); [done|]. by intros [= <-].
  - destruct (iteration (Recursive.init b start_url)) as [st1|] eqn:Hit;
      [|by intros [= <-]].
    intros Hrun. apply while_queue_results_prefix in Hrun as [rest ->].
    revert Hit. unfold Recursive.iteration, Recursive.init. rec_fields.
    destruct (Recursive.below_max_pages _ _); [|done].
    rewrite bool_decide_eq_false_2 by apply not_elem_of_empty.
    intros [= <-]. unfold Recursive.attempt. rec_fields.
    by destruct (backend_crawl b start_url) as [b' [markdown elapsed|message]].
Qed.

End RecursiveCounts.

Lemma rec_no_refetch_tail (r : Recursive.page_result) (l : list Recursive.page_result) :
  rec_no_refetch (r :: l) -> rec_no_refetch l.
Proof.
  intros Hno i j ri rj Hi Hj Hlt. apply (Hno (S i) (S j)); simpl; [done|done|lia].
Qed.

Lemma rec_no_refetch_NoDup (l : list Recursive.page_result) :
  rec_no_refetch l -> NoDup (map Recursive.r_url (rec_successes l)).
Proof.
  induction l as [|r l IH]; intros Hno; simpl; [constructor|].
  specialize (IH (rec_no_refetch_tail r l Hno)).
  destruct (Recursive.r_success r) eqn:Hok; [|exact IH].
  simpl. constructor; [|exact IH].
  intros Hin. apply list_elem_of_fmap in Hin as (r' & Hurl & Hin).
  apply list_elem_of_In, filter_In in Hin as [Hin _].
  apply list_elem_of_In, list_elem_of_lookup in Hin as [j Hj].
  apply (Hno 0%nat (S j) r r'); simpl; [done|done|lia|done|done].
Qed.

(** X4. [crawl_recursive] on a new crawler raises [ZeroDivisionError]
    when [max_pages < 1]: the loop does not run, the backend is not called,
    and the success rate divides by the number of results, which is 0. With
    [max_pages >= 1] the seed is fetched, there is at least one result, and
    the dictionary is returned, with the results in the order of the
    calls of the backend. *)
Theorem crawl_recursive_divides_by_results {B : Type} `{CrawlBackend B} `{SetOrder}
    (cfg : Recursive.config) (b : B) (start_url backend_name : string) :
  exists st : Recursive.state B,
    Recursive.crawl_recursive Extract.recursive_extract_guardian_links cfg b start_url
    = Some st
    /\ (Recursive.max_pages cfg < 1 ->
        Recursive.trace st = []
        /\ recursive_return backend_name start_url st = inl ZeroDivisionError)
    /\ (1 <= Recursive.max_pages cfg ->
        exists s : recursive_summary,
          recursive_return backend_name start_url st = inr s
          /\ rs_results s <> []
          /\ crawls (Recursive.trace st) = map Recursive.r_url (rs_results s)
          /\ head (crawls (Recursive.trace st)) = Some start_url).
Proof.
  destruct (crawl_recursive_counts Extract.recursive_extract_guardian_links
              extract_guardian_links_capped cfg b start_url)
    as (st & Hrun & Hinv & Hnone & Hsome).
  exists st. split; [exact Hrun|]. split.
  - intros Hmax. rewrite (Hnone Hmax). by split.
  - intros Hmax. specialize (Hsome Hmax).
    destruct Hinv as (_ & _ & _ & _ & _ & Htrace).
    unfold recursive_return.
    destruct (Recursive.crawl_results st) as [|r results] eqn:Hres; [done|].
    eexists. split; [reflexivity|]. simpl. split; [done|]. split; [by rewrite Htrace|].
    rewrite Htrace. simpl. f_equal.
    pose proof (first_result_is_seed Extract.recursive_extract_guardian_links cfg
                  b start_url st Hrun) as Hseed.
    rewrite Hres in Hseed. simpl in Hseed. by injection Hseed.
Qed.

(** X5. In a run of [crawl_recursive] on a new crawler, [pages_crawled]
    (the size of [crawled_urls]) is at most [max_pages], and is the number
    of successful results; [crawled_urls] holds exactly the URLs of the
    successful results, which are distinct: after a successful fetch of a
    URL no later result has that URL. *)
Theorem pages_crawled_within_max_pages {B : Type} `{CrawlBackend B} `{SetOrder}
    (cfg : Recursive.config) (b : B) (start_url : string) :
  exists st : Recursive.state B,
    Recursive.crawl_recursive Extract.recursive_extract_guardian_links cfg b start_url
    = Some st
    /\ Z.of_nat (size (Recursive.crawled_urls st)) <= Z.max 0 (Recursive.max_pages cfg)
    /\ size (Recursive.crawled_urls st)
       = length (rec_successes (Recursive.crawl_results st))
    /\ (forall url : string,
          url ∈ Recursive.crawled_urls st
          <-> exists r, r ∈ Recursive.crawl_results st
                        /\ Recursive.r_success r = true /\ Recursive.r_url r = url)
    /\ rec_no_refetch (Recursive.crawl_results st)
    /\ NoDup (map Recursive.r_url (rec_successes (Recursive.crawl_results st))).
Proof.
  destruct (crawl_recursive_counts Extract.recursive_extract_guardian_links
              extract_guardian_links_capped cfg b start_url)
    as (st & Hrun & (Hc & Hno & Hsize & Hmax & _) & _).
  exists st. split; [exact Hrun|]. split; [exact Hmax|]. split; [exact Hsize|].
  split; [|split; [exact Hno|by apply rec_no_refetch_NoDup]].
  intros url. rewrite Hc, elem_of_list_to_set, list_elem_of_fmap. split.
  - intros (r & -> & Hin). apply list_elem_of_In, filter_In in Hin as [Hin Hok].
    exists r. by rewrite list_elem_of_In.
  - intros (r & Hin & Hok & <-). exists r. split; [done|].
    apply list_elem_of_In, filter_In. by rewrite <- list_elem_of_In.
Qed.

(** X6. A run of [crawl_recursive] on a new crawler calls the backend at
    most [1 + 5 * max_pages] times: for the seed, and for at most five links
    of each page that was fetched. Every call gives one result, and the
    results and the URLs left in the queue are together at most one more
    than five times the successful results. *)
Theorem recursive_dispatches_are_bounded {B : Type} `{CrawlBackend B} `{SetOrder}
    (cfg : Recursive.config) (b : B) (start_url : string) :
  exists st : Recursive.state B,
    Recursive.crawl_recursive Extract.recursive_extract_guardian_links cfg b start_url
    = Some st
    /\ length (crawls (Recursive.trace st)) = length (Recursive.crawl_results st)
    /\ (length (Recursive.crawl_results st) + length (Recursive.queue st)
        <= 1 + 5 * length (rec_successes (Recursive.crawl_results st)))%nat
    /\ Z.of_nat (length (Recursive.crawl_results st))
       <= 1 + 5 * Z.max 0 (Recursive.max_pages cfg).
Proof.
  destruct (crawl_recursive_counts Extract.recursive_extract_guardian_links
              extract_guardian_links_capped cfg b start_url)
    as (st & Hrun & (_ & _ & Hsize & Hmax & Hlen & Htrace) & _).
  exists st. split; [exact Hrun|].
  split; [by rewrite Htrace, length_map|]. split; [exact Hlen|]. lia.
Qed.

(** ** The depth-limited crawler on an object that has run before *)

Section DepthReuse.
Context {B : Type} `{CrawlBackend B}.
Variable extract_links : string -> list string.
Variable cfg : Depth.config.

(** What a run keeps of the object [st0] it started on: the URLs crawled
    before stay crawled and are not fetched, and no bucket is removed. *)
Definition keeps (st0 st : Depth.state B) : Prop :=
  Depth.crawled_urls st0 ⊆ Depth.crawled_urls st
  /\ (forall url, url ∈ crawls (Depth.trace st) -> url ∉ Depth.crawled_urls st0)
  /\ dom (Depth.depth_results st0) ⊆ dom (Depth.depth_results st).

Lemma crawls_one_event (r : page_result) : crawls (events_of r) = [r_url r].
Proof. unfold events_of. by destruct (r_success r). Qed.

Lemma keeps_attempt (st0 st : Depth.state B) (depth : Z) (url : string) :
  keeps st0 st -> url ∉ Depth.crawled_urls st ->
  keeps st0 (Depth.attempt extract_links cfg depth url st).
Proof.
  intros (Hsub & Hfresh & Hdom) Hnew.
  destruct (attempt_results extract_links cfg depth url st)
    as (_ & _ & Htrace & _ & Hdr & Hcrawled & _).
  unfold keeps. rewrite Htrace, Hdr, Hcrawled, crawls_app, crawls_one_event,
    result_of_url.
  split; [|split; [|done]].
  - destruct (r_success _); [|done]. etransitivity; [exact Hsub|apply union_subseteq_l].
  - intros u Hu. apply elem_of_app in Hu as [Hu|Hu]; [by apply Hfresh|].
    apply list_elem_of_singleton in Hu as ->. intros Hin. by apply Hnew, Hsub.
Qed.

Lemma keeps_run (st st' : Depth.state B) (start_url : string) :
  Depth.run extract_links cfg st start_url = Some st' -> keeps st st'.
Proof.
  unfold Depth.run. intros Hrun.
  destruct (while_levels_inv extract_links cfg (fun _ => keeps st))
    with (3 := Hrun) as [_ Hkeeps]; [| |exact Hkeeps].
  - intros url d rest st1 Hst1 _ st2. subst st2.
    assert (Hlevel : keeps st (Depth.for_level extract_links cfg d ((url, d) :: rest)
                                 (Depth.enter_level st1))).
    { apply for_level_inv; [|exact Hst1].
      intros st2 u Hst2 Hnew _. by apply keeps_attempt. }
    destruct Hlevel as (Hsub & Hfresh & Hdom). split; [done|]. split; [done|].
    unfold Depth.leave_level. simpl. rewrite dom_insert. set_solver.
  - split; [done|]. split; [|done]. intros url Hurl. inversion Hurl.
Qed.

End DepthReuse.

(** X7. A run of [crawl_depth_limited] on a crawler that has run before
    returns, fetches no URL that was in [crawled_urls] before the run, keeps
    these URLs in [crawled_urls], and removes no bucket of [depth_results]:
    the buckets of earlier runs stay in the summary unless the run
    overwrites them. *)
Theorem rerun_skips_crawled_urls {B : Type} `{CrawlBackend B}
    (extract_links : string -> list string) (cfg : Depth.config)
    (st : Depth.state B) (start_url : string) :
  exists st' : Depth.state B,
    Depth.run extract_links cfg st start_url = Some st'
    /\ Depth.crawled_urls st ⊆ Depth.crawled_urls st'
    /\ (forall url, url ∈ crawls (Depth.trace st') -> url ∉ Depth.crawled_urls st)
    /\ (forall k : Z,
          is_Some (Depth.depth_results st !! k) ->
          is_Some (Depth.results_by_depth (Depth.summarize st') !! k)).
Proof.
  destruct (run_total extract_links cfg st start_url) as [st' Hrun].
  exists st'. split; [exact Hrun|].
  destruct (keeps_run extract_links cfg st st' start_url Hrun) as (Hsub & Hfresh & Hdom).
  split; [exact Hsub|]. split; [exact Hfresh|].
  intros k Hk. simpl. apply elem_of_dom, Hdom, elem_of_dom, Hk.
Qed.

(** X8. A second run from a seed that is already in [crawled_urls], with
    [max_depth >= 0]: the backend is not called and the summary has no
    page; the bucket of depth 0 is overwritten by an empty one, and every
    other bucket is the one of the earlier runs, so that [max_depth_reached]
    and the counts of the depths above 0 describe the earlier runs. *)
Theorem rerun_from_crawled_seed {B : Type} `{CrawlBackend B}
    (extract_links : string -> list string) (cfg : Depth.config)
    (st : Depth.state B) (start_url : string) :
  start_url ∈ Depth.crawled_urls st ->
  0 <= Depth.max_depth cfg ->
  exists st' : Depth.state B,
    Depth.run extract_links cfg st start_url = Some st'
    /\ Depth.trace st' = []
    /\ Depth.backend st' = Depth.backend st
    /\ Depth.crawled_urls st' = Depth.crawled_urls st
    /\ Depth.total_pages (Depth.summarize st') = 0
    /\ Depth.depth_results st' = <[0 := []]> (Depth.depth_results st)
    /\ Depth.depth_breakdown (Depth.summarize st') !! 0 = Some 0
    /\ (forall k : Z, k <> 0 ->
          Depth.depth_breakdown (Depth.summarize st') !! k
          = (fun results => Z.of_nat (length results)) <$> Depth.depth_results st !! k)
    /\ Depth.max_depth_reached (Depth.summarize st')
       = Depth.max_key (<[0 := []]> (Depth.depth_results st)).
Proof.
  intros Hseed Hdepth. unfold Depth.run, Depth.enough_fuel.
  destruct (Z.to_nat (Depth.max_depth cfg + 1)) as [|fuel] eqn:Hfuel; [lia|].
  simpl. destruct (Z.ltb_spec (Depth.max_depth cfg) 0); [lia|].
  rewrite bool_decide_eq_true_2 by done. simpl.
  eexists. split; [by destruct fuel|]. simpl.
  split; [done|]. split; [done|]. split; [done|]. split; [done|]. split; [done|].
  split; [by rewrite lookup_fmap, lookup_insert_eq|]. split; [|done].
  intros k Hk. by rewrite !lookup_fmap, lookup_insert_ne.
Qed.

(** ** Stripping and cutting strings *)

Lemma take_length (n : nat) (s : string) : (String.length (Py.take n s) <= n)%nat.
Proof.
  revert s. induction n as [|n IH]; intros [|c s]; simpl; try lia.
  specialize (IH s). lia.
Qed.

Lemma take_first_char (n : nat) (s : string) :
  first_char (Py.take (S n) s) = first_char s.
Proof. by destruct s. Qed.

Lemma append_length (s t : string) :
  String.length (s +:+ t) = (String.length s + String.length t)%nat.
Proof. induction s as [|c s IH]; simpl; [done|]. by rewrite IH. Qed.

Lemma lstrip_first_char (p : ascii -> bool) (s : string) (c : ascii) :
  first_char (Py.lstrip_with p s) = Some c -> p c = false.
Proof.
  induction s as [|x s IH]; simpl; [done|].
  destruct (p x) eqn:Hx; [exact IH|]. simpl. by intros [= <-].
Qed.

Lemma rstrip_first_char (p : ascii -> bool) (s : string) (c : ascii) :
  first_char (Py.rstrip_with p s) = Some c -> first_char s = Some c.
Proof.
  destruct s as [|x s]; simpl; [done|].
  destruct (Py.rstrip_with p s); [|done]. by destruct (p x).
Qed.

Lemma rstrip_last_char (p : ascii -> bool) (s : string) (c : ascii) :
  last_char (Py.rstrip_with p s) = Some c -> p c = false.
Proof.
  induction s as [|x s IH]; simpl; [done|].
  destruct (Py.rstrip_with p s) as [|y t] eqn:Hs.
  - destruct (p x) eqn:Hx; simpl; [done|]. by intros [= <-].
  - exact IH.
Qed.

(** What [strip] returns neither starts nor ends with a character that
    it strips. *)
Lemma strip_with_ends (p : ascii -> bool) (s : string) (c : ascii) :
  first_char (Py.strip_with p s) = Some c \/ last_char (Py.strip_with p s) = Some c ->
  p c = false.
Proof.
  unfold Py.strip_with. intros [Hc|Hc].
  - by eapply lstrip_first_char, rstrip_first_char.
  - by eapply rstrip_last_char.
Qed.

Lemma all_chars_lstrip (q p : ascii -> bool) (s : string) :
  Py.all_chars q s = true -> Py.all_chars q (Py.lstrip_with p s) = true.
Proof.
  induction s as [|x s IH]; simpl; [done|].
  intros Hq. apply andb_true_iff in Hq as [Hx Hs].
  destruct (p x); [by apply IH|]. simpl. by rewrite Hx, Hs.
Qed.

Lemma all_chars_rstrip (q p : ascii -> bool) (s : string) :
  Py.all_chars q s = true -> Py.all_chars q (Py.rstrip_with p s) = true.
Proof.
  induction s as [|x s IH]; simpl; [done|].
  intros Hq. apply andb_true_iff in Hq as [Hx Hs]. specialize (IH Hs).
  destruct (Py.rstrip_with p s) as [|y t].
  - destruct (p x); simpl; [done|]. by rewrite Hx.
  - simpl in *. by rewrite Hx, IH.
Qed.

Lemma all_chars_strip (q p : ascii -> bool) (s : string) :
  Py.all_chars q s = true -> Py.all_chars q (Py.strip_with p s) = true.
Proof. intros Hq. by apply all_chars_rstrip, all_chars_lstrip. Qed.

(** ** [BrowserUseBackend._extract_title] *)

Lemma first_meaningful_spec (lines : list string) :
  (BrowserUse.first_meaningful lines = EmptyString
   /\ Forall (fun line => Py.strip line = EmptyString
                          \/ Py.startswith "#" (Py.strip line) = true) lines)
  \/ (exists before line after,
        lines = before ++ line :: after
        /\ Forall (fun line => Py.strip line = EmptyString
                               \/ Py.startswith "#" (Py.strip line) = true) before
        /\ Py.strip line <> EmptyString
        /\ Py.startswith "#" (Py.strip line) = false
        /\ BrowserUse.first_meaningful lines = Py.take 100 (Py.strip line)).
Proof.
  induction lines as [|line lines IH]; cbn [BrowserUse.first_meaningful].
  - left. by split.
  - destruct (Py.strip line) as [|c stripped] eqn:Hstrip.
    + destruct IH as [[Hnone Hall]|(before & l & after & -> & Hbefore & Hl)].
      * left. split; [done|]. constructor; [by left|done].
      * right. exists (line :: before), l, after. split; [done|].
        split; [|done]. constructor; [by left|done].
    + destruct (Py.startswith "#" (String c stripped)) eqn:Hhash.
      * destruct IH as [[Hnone Hall]|(before & l & after & -> & Hbefore & Hl)].
        -- left. split; [done|]. constructor; [right; by rewrite Hstrip|done].
        -- right. exists (line :: before), l, after. split; [done|].
           split; [|done]. constructor; [right; by rewrite Hstrip|done].
      * right. exists [], line, lines. rewrite Hstrip. by repeat split.
Qed.

(** X9. [_extract_title(content)] returns at most 100 characters. It
    is the first of the first five lines that, stripped, is neither empty
    nor starts with ["#"], stripped and cut; so it never starts with ["#"]
    nor with white space, and it is empty exactly when none of the first
    five lines is such a line (a title beyond the fifth line is not
    found). *)
Theorem browser_use_title_is_first_plain_line (content : string) :
  let lines := firstn 5 (Py.split newline content) in
  let title := BrowserUse.extract_title content in
  (String.length title <= 100)%nat
  /\ Py.startswith "#" title = false
  /\ (forall c, first_char title = Some c -> Py.isspace c = false)
  /\ (title = EmptyString
      <-> Forall (fun line => Py.strip line = EmptyString
                              \/ Py.startswith "#" (Py.strip line) = true) lines)
  /\ (title <> EmptyString ->
      exists before line after,
        lines = before ++ line :: after
        /\ Forall (fun line => Py.strip line = EmptyString
                               \/ Py.startswith "#" (Py.strip line) = true) before
        /\ title = Py.take 100 (Py.strip line)).
Proof.
  intros lines title. unfold title, BrowserUse.extract_title. fold lines.
  destruct (first_meaningful_spec lines)
    as [[Hnone Hall]|(before & line & after & Hlines & Hbefore & Hne & Hhash & Htitle)].
  - rewrite Hnone. split; [simpl; lia|]. split; [done|]. split; [done|].
    split; [done|]. done.
  - rewrite Htitle.
    destruct (Py.strip line) as [|c stripped] eqn:Hstrip; [done|].
    split; [apply take_length|]. split; [exact Hhash|]. split; [|split].
    + intros x Hx. apply (strip_with_ends Py.isspace line). left.
      fold (Py.strip line). rewrite Hstrip. simpl in *. done.
    + split; [done|]. rewrite Hlines. intros Hall.
      apply Forall_app in Hall as [_ Hall]. apply Forall_cons in Hall as [[Hl|Hl] _].
      * by rewrite Hstrip in Hl.
      * rewrite Hstrip in Hl. congruence.
    + intros _. exists before, line, after. by rewrite Hstrip.
Qed.

(** ** [BrowserUseBackend._extract_keywords] *)

Lemma cons_nonempty_Forall (P : string -> Prop) (w : string) (ws : list string) :
  (w <> EmptyString -> P w) -> Forall P ws -> Forall P (PyStr.cons_nonempty w ws).
Proof.
  intros Hw Hws. destruct w as [|c w]; simpl; [done|]. constructor; [by apply Hw|done].
Qed.

(** The words of [s.split()] are not empty, hold no white space, and
    hold only characters of [s]. *)
Lemma split_words (q : ascii -> bool) (s : string) :
  Py.all_chars q s = true ->
  Forall (fun w => w <> EmptyString
                   /\ Py.all_chars (fun c => negb (Py.isspace c) && q c) w = true)
         (PyStr.split s).
Proof.
  intros Hq. unfold PyStr.split.
  assert (Haux : Py.all_chars (fun c => negb (Py.isspace c) && q c) (PyStr.split_aux s).1
                 = true
                 /\ Forall (fun w => w <> EmptyString
                      /\ Py.all_chars (fun c => negb (Py.isspace c) && q c) w = true)
                      (PyStr.split_aux s).2).
  { induction s as [|c s IH]; simpl; [by split|].
    simpl in Hq. apply andb_true_iff in Hq as [Hc Hs].
    destruct (IH Hs) as [Hw Hws]. destruct (PyStr.split_aux s) as [w ws]. simpl in *.
    destruct (Py.isspace c) eqn:Hspace; simpl.
    - split; [done|]. by apply cons_nonempty_Forall.
    - rewrite Hspace, Hc, Hw. by split. }
  destruct (PyStr.split_aux s) as [w ws]. simpl in Haux. destruct Haux as [Hw Hws].
  by apply cons_nonempty_Forall.
Qed.

Lemma lower_char_not_upper (c : ascii) :
  negb (Py.between 65 90 (PyStr.lower_char c)) = true.
Proof. destruct c as [[] [] [] [] [] [] [] []]; reflexivity. Qed.

Lemma lower_not_upper (s : string) :
  Py.all_chars (fun c => negb (Py.between 65 90 c)) (PyStr.lower s) = true.
Proof.
  induction s as [|c s IH]; simpl; [done|]. by rewrite lower_char_not_upper, IH.
Qed.

Lemma keyword_candidates_spec (content k : string) :
  k ∈ BrowserUse.keyword_candidates content ->
  (exists word,
      word ∈ PyStr.split (PyStr.lower content)
      /\ (3 < String.length word)%nat
      /\ (word ∉ BrowserUse.common_words)
      /\ k = PyStr.strip_chars BrowserUse.punctuation word)
  /\ Py.all_chars (fun c => negb (Py.isspace c) && negb (Py.between 65 90 c)) k = true
  /\ (forall c, first_char k = Some c \/ last_char k = Some c ->
                PyStr.char_in BrowserUse.punctuation c = false).
Proof.
  unfold BrowserUse.keyword_candidates. intros Hk.
  apply list_elem_of_fmap in Hk as (word & -> & Hword).
  apply list_elem_of_In, filter_In in Hword as [Hword Hkeep].
  apply list_elem_of_In in Hword.
  unfold BrowserUse.keeps_word in Hkeep. apply andb_true_iff in Hkeep as [Hlen Hcommon].
  apply Nat.ltb_lt in Hlen. apply negb_true_iff, bool_decide_eq_false in Hcommon.
  split; [by exists word|]. split.
  - apply all_chars_strip.
    pose proof (split_words _ _ (lower_not_upper content)) as Hwords.
    rewrite Forall_forall in Hwords. by destruct (Hwords word Hword).
  - intros c. apply strip_with_ends.
Qed.

(** X10. [_extract_keywords(content)] returns at most ten keywords,
    without repetition. Each is a word of the lower-cased content (a maximal
    run without white space) of more than three characters that is not a
    common word, with the punctuation stripped from its two ends: it holds
    no white space and no capital letter A-Z, and neither starts nor ends
    with a punctuation character. The test on the length and on the common
    words is made before the stripping, on the word with its
    punctuation. *)
Theorem browser_use_keywords `{SetOrder} (content : string) :
  let keywords := BrowserUse.extract_keywords content in
  NoDup keywords
  /\ (length keywords <= 10)%nat
  /\ forall k, k ∈ keywords ->
       (exists word,
           word ∈ PyStr.split (PyStr.lower content)
           /\ (3 < String.length word)%nat
           /\ (word ∉ BrowserUse.common_words)
           /\ k = PyStr.strip_chars BrowserUse.punctuation word)
       /\ Py.all_chars (fun c => negb (Py.isspace c) && negb (Py.between 65 90 c)) k
          = true
       /\ (forall c, first_char k = Some c \/ last_char k = Some c ->
                     PyStr.char_in BrowserUse.punctuation c = false).
Proof.
  intros keywords. unfold keywords, BrowserUse.extract_keywords.
  destruct (firstn_NoDup_elem 10 _ (set_iter_NoDup (BrowserUse.keyword_candidates content)))
    as (Hnodup & Helem & Hlen).
  split; [exact Hnodup|]. split; [exact Hlen|].
  intros k Hk. apply keyword_candidates_spec. by apply set_iter_elem, Helem.
Qed.

(** ** [BrowserUseBackend._process_agent_result] *)

Lemma extract_title_length (content : string) :
  (String.length (BrowserUse.extract_title content) <= 100)%nat.
Proof.
  unfold BrowserUse.extract_title.
  destruct (first_meaningful_spec (firstn 5 (Py.split newline content)))
    as [[-> _]|(before & line & after & _ & _ & _ & _ & ->)]; [simpl; lia|].
  apply take_length.
Qed.

Lemma extract_keywords_bounds `{SetOrder} (content : string) :
  NoDup (BrowserUse.extract_keywords content)
  /\ (length (BrowserUse.extract_keywords content) <= 10)%nat.
Proof.
  destruct (firstn_NoDup_elem 10 _ (set_iter_NoDup (BrowserUse.keyword_candidates content)))
    as (Hnodup & _ & Hlen).
  by split.
Qed.

Lemma ellipsis_length (n : nat) (s : string) :
  (String.length (PyStr.ellipsis_if_longer n s) <= n + 3)%nat
  /\ ((String.length s <= n)%nat -> PyStr.ellipsis_if_longer n s = s)
  /\ ((n < String.length s)%nat ->
      PyStr.ellipsis_if_longer n s = Py.take n s +:+ "...").
Proof.
  unfold PyStr.ellipsis_if_longer.
  destruct (Nat.ltb_spec n (String.length s)) as [Hlt|Hle].
  - split; [|split; [lia|done]].
    rewrite append_length. pose proof (take_length n s). simpl. lia.
  - split; [lia|]. split; [done|lia].
Qed.

(** X11. [_process_agent_result] sets at most one of [markdown],
    [raw_html] and [structured_data], chosen by the format, and none of them
    for a format other than the three (no error is raised for it): for
    ["markdown"] and ["html"] the field is the text of the agent's result
    (the empty string for a result that is false). For ["structured"] the
    title has at most 100 characters, the summary at most 503 (the content
    itself up to 500 characters), and there are at most ten keywords. The
    metadata always names the backend, the format, the URL and the length of
    the content, and [cache_hit] is false. *)
Theorem browser_use_result_by_format `{SetOrder} (url format : string)
    (agent_result : option string) (execution_time : Q) :
  let content := markdown_or_empty agent_result in
  let result := BrowserUse.process_agent_result url format agent_result execution_time in
  cr_markdown result = (if String.eqb format "markdown" then Some content else None)
  /\ cr_raw_html result = (if String.eqb format "html" then Some content else None)
  /\ (cr_structured_data result <> None <-> format = "structured")
  /\ (forall d, cr_structured_data result = Some d ->
        cr_markdown result = None /\ cr_raw_html result = None
        /\ dict_get "content" d = Some (PStr content)
        /\ exists title summary keywords,
             dict_get "title" d = Some (PStr title)
             /\ dict_get "summary" d = Some (PStr summary)
             /\ dict_get "keywords" d = Some (PList keywords)
             /\ (String.length title <= 100)%nat
             /\ (String.length summary <= 503)%nat
             /\ ((String.length content <= 500)%nat -> summary = content)
             /\ (length keywords <= 10)%nat /\ NoDup keywords)
  /\ (cr_markdown result <> None -> cr_raw_html result = None)
  /\ cr_metadata result !! "ai_backend" = Some "browser-use"
  /\ cr_metadata result !! "content_length"
     = Some (PyStr.str_of_Z (Z.of_nat (String.length content)))
  /\ cr_metadata result !! "format_requested" = Some format
  /\ cr_metadata result !! "url" = Some url
  /\ cr_cache_hit result = false
  /\ cr_url result = url.
Proof.
  intros content result. unfold result, BrowserUse.process_agent_result.
  fold content. cbn [cr_markdown cr_raw_html cr_structured_data cr_metadata
                     cr_cache_hit cr_url].
  destruct (String.eqb_spec format "markdown") as [->|Hmd];
    [|destruct (String.eqb_spec format "html") as [->|Hhtml];
      [|destruct (String.eqb_spec format "structured") as [->|Hst]]];
    (split; [done|]); (split; [done|]);
    (split; [split; [done|try done; try (intros ->; done)]|]);
    (split; [|split; [done|by repeat split]]).
  - done.
  - done.
  - intros d [= <-]. split; [done|]. split; [done|]. split; [done|].
    destruct (ellipsis_length 500 content) as (Hlen & Hsame & _).
    destruct (extract_keywords_bounds content) as (Hnodup & Hten).
    eexists _, _, _. split; [done|]. split; [done|]. split; [done|].
    split; [apply extract_title_length|by repeat split].
  - done.
Qed.

(** ** [ScrapyBackend.crawl] *)

(** X12. [ScrapyBackend.crawl] returns a result exactly when the output
    file of the subprocess holds at least one item, whatever was written to
    stderr; the result is made from the first item only, its [markdown] is
    always [None], its [raw_html] the HTML of the item, and its metadata has
    the title, the status code, the URL and the number of links of the item,
    as strings. Otherwise it raises [ValueError]: "Scrapy returned no
    results" for a file without items, and for an unreadable file with
    nothing on stderr; "Scrapy crawl failed: Scrapy error: ..." with the text
    of stderr for an unreadable file; "Scrapy crawl failed: ..." for any
    other exception of the subprocess. *)
Theorem scrapy_crawl_outcomes (url format : string) (run : Scrapy.subprocess_run)
    (execution_time : Q) :
  (forall result,
      Scrapy.crawl url format run execution_time = inr result ->
      exists item rest stderr,
        run = Scrapy.Completed (Some (item :: rest)) stderr
        /\ cr_markdown result = None
        /\ cr_raw_html result = Some (Scrapy.i_raw_html item)
        /\ cr_url result = url
        /\ cr_backend_used result = "scrapy"
        /\ cr_cache_hit result = false
        /\ cr_metadata result !! "title" = Some (Scrapy.i_title item)
        /\ cr_metadata result !! "status_code"
           = Some (PyStr.str_of_Z (Scrapy.i_status_code item))
        /\ cr_metadata result !! "url" = Some (Scrapy.i_url item)
        /\ cr_metadata result !! "links_count"
           = Some (PyStr.str_of_Z (Z.of_nat (length (Scrapy.i_links item))))
        /\ (cr_structured_data result <> None <-> format = "structured"))
  /\ (forall item rest stderr,
        run = Scrapy.Completed (Some (item :: rest)) stderr ->
        exists result, Scrapy.crawl url format run execution_time = inr result)
  /\ (forall stderr,
        run = Scrapy.Completed (Some []) stderr
        \/ run = Scrapy.Completed None EmptyString ->
        Scrapy.crawl url format run execution_time = inl "Scrapy returned no results")
  /\ (forall stderr,
        run = Scrapy.Completed None stderr -> stderr <> EmptyString ->
        Scrapy.crawl url format run execution_time
        = inl ("Scrapy crawl failed: Scrapy error: " +:+ stderr))
  /\ (forall message,
        run = Scrapy.Crashed message ->
        Scrapy.crawl url format run execution_time
        = inl ("Scrapy crawl failed: " +:+ message)).
Proof.
  split; [|split; [|split; [|split]]].
  - intros result. unfold Scrapy.crawl.
    destruct run as [[[|item rest]|] stderr|message];
      try (destruct stderr); simpl; try done.
    all: intros [= <-]; exists item, rest; eexists; split; [reflexivity|];
      cbn [cr_markdown cr_raw_html cr_url cr_backend_used cr_cache_hit cr_metadata
           cr_structured_data];
      (do 9 (split; [done|]));
      destruct (String.eqb_spec format "structured"); by split.
  - intros item rest stderr ->. unfold Scrapy.crawl. simpl. by eexists.
  - by intros stderr [->| ->].
  - intros stderr -> Hne. by destruct stderr.
  - by intros message ->.
Qed.

(** X13. With the format ["structured"], [ScrapyBackend.crawl] returns
    a dictionary whose summary is the first 200 characters of the HTML
    followed by ["..."], also when the HTML is shorter than 200 characters
    (and is empty for empty HTML); it holds the first five links of the
    item, in their order, and no keyword. *)
Theorem scrapy_structured_data (url : string) (item : Scrapy.item)
    (rest : list Scrapy.item) (stderr : string) (execution_time : Q) :
  exists result d summary,
    Scrapy.crawl url "structured" (Scrapy.Completed (Some (item :: rest)) stderr)
      execution_time = inr result
    /\ cr_structured_data result = Some d
    /\ dict_get "title" d = Some (PStr (Scrapy.i_title item))
    /\ dict_get "keywords" d = Some (PList [])
    /\ dict_get "links" d = Some (PList (firstn 5 (Scrapy.i_links item)))
    /\ dict_get "summary" d = Some (PStr summary)
    /\ (String.length summary <= 203)%nat
    /\ (Scrapy.i_raw_html item = EmptyString -> summary = EmptyString)
    /\ (Scrapy.i_raw_html item <> EmptyString ->
        summary = Py.take 200 (Scrapy.i_raw_html item) +:+ "...").
Proof.
  unfold Scrapy.crawl. simpl.
  eexists _, _, _. split; [reflexivity|]. simpl.
  split; [reflexivity|]. split; [done|]. split; [done|]. split; [done|].
  split; [done|].
  destruct (Scrapy.i_raw_html item) as [|c html] eqn:Hhtml.
  - split; [simpl; lia|]. by split.
  - split; [|by split].
    rewrite append_length. pose proof (take_length 200 (String c html)). simpl in *. lia.
Qed.

(** ** The crawlers over a backend whose pages give no links *)

Section NoLinks.
Context {B : Type} `{CrawlBackend B}.

(** A depth-limited run in which no fetched page gives a link ends
    after the seed. *)
Lemma depth_run_without_links (extract_links : string -> list string)
    (cfg : Depth.config) (b : B) (start_url : string) :
  (forall b' markdown elapsed,
      backend_crawl b start_url = (b', Fetched markdown elapsed) ->
      extract_links (markdown_or_empty markdown) = []) ->
  exists st,
    Depth.run extract_links cfg (Depth.init b) start_url = Some st
    /\ (Depth.all_results st = []
        \/ Depth.all_results st = [result_of 0 start_url (backend_crawl b start_url).2])
    /\ Depth.max_key (Depth.depth_results st) = 0.
Proof.
  intros Hquiet. destruct cfg as [max_depth max_pages].
  unfold Depth.run, Depth.enough_fuel. simpl.
  destruct (Z.ltb_spec max_depth 0) as [Hneg|Hpos].
  { rewrite while_levels_beyond by (simpl; lia).
    eexists. split; [reflexivity|]. split; [by left|]. done. }
  replace (Z.to_nat (max_depth + 1)) with (S (Z.to_nat max_depth)) by lia.
  assert (Hkey : forall results : list page_result,
             Depth.max_key (<[0 := results]> (∅ : gmap Z (list page_result))) = 0).
  { intros results. apply (max_key_range _ 1). intros k.
    destruct (decide (k = 0)) as [->|Hk].
    - rewrite lookup_insert_eq. split; [lia|by eexists].
    - rewrite lookup_insert_ne, lookup_empty by done.
      split; [by intros [? ?]|lia]. }
  assert (Hend : forall n (st : Depth.state B),
             Depth.while_levels extract_links (Depth.Config max_depth max_pages) n [] st
             = Some st) by (by intros [|n] st).
  simpl. destruct (Z.ltb_spec max_depth 0); [lia|].
  rewrite bool_decide_eq_false_2 by apply not_elem_of_empty.
  destruct (Z.leb_spec max_pages 0).
  { simpl. rewrite Hend. eexists. split; [reflexivity|]. split; [by left|]. apply Hkey. }
  unfold Depth.attempt. simpl.
  destruct (backend_crawl b start_url) as [b' [markdown elapsed|message]] eqn:Hfetch;
    simpl.
  - rewrite (Hquiet b' markdown elapsed eq_refl).
    replace (if 0 <? max_depth then _ else _) with (@nil (string * Z))
      by (by destruct (0 <? max_depth)).
    rewrite Hend. eexists. split; [reflexivity|]. split; [by right|]. apply Hkey.
  - rewrite Hend. eexists. split; [reflexivity|]. split; [by right|]. apply Hkey.
Qed.

(** A recursive run in which no fetched page gives a link ends after
    the seed. *)
Lemma recursive_run_without_links (extract_links : string -> string -> list string)
    (cfg : Recursive.config) (b : B) (start_url : string) :
  (forall b' markdown elapsed,
      backend_crawl b start_url = (b', Fetched markdown elapsed) ->
      extract_links (markdown_or_empty markdown) start_url = []) ->
  exists st,
    Recursive.crawl_recursive extract_links cfg b start_url = Some st
    /\ (length (Recursive.crawl_results st) <= 1)%nat
    /\ Forall (fun r => Recursive.r_url r = start_url) (Recursive.crawl_results st).
Proof.
  intros Hquiet. unfold Recursive.crawl_recursive, Recursive.enough_fuel.
  unfold Recursive.init at 1 2. rec_fields. rewrite size_empty.
  replace (6 * Z.to_nat (Recursive.max_pages cfg - Z.of_nat 0) + length [start_url])%nat
    with (S (6 * Z.to_nat (Recursive.max_pages cfg))) by (simpl; lia).
  cbn [Recursive.while_queue]. unfold Recursive.iteration at 1.
  unfold Recursive.init. rec_fields.
  unfold Recursive.below_max_pages at 1. rewrite size_empty.
  destruct (Z.ltb_spec (Z.of_nat 0) (Recursive.max_pages cfg)) as [Hpos|Hneg].
  2:{ eexists. split; [reflexivity|]. simpl. split; [lia|constructor]. }
  rewrite bool_decide_eq_false_2 by apply not_elem_of_empty.
  assert (Hend : forall n (st : Recursive.state B),
             Recursive.queue st = [] ->
             Recursive.while_queue extract_links cfg n st = Some st).
  { intros n st Hq. destruct n; simpl; unfold Recursive.iteration; by rewrite Hq. }
  unfold Recursive.attempt. rec_fields.
  destruct (backend_crawl b start_url) as [b' [markdown elapsed|message]] eqn:Hfetch.
  - rewrite (Hquiet b' markdown elapsed eq_refl). simpl.
    eexists. split.
    + apply Hend. simpl. by destruct (Recursive.below_max_pages _ _).
    + simpl. split; [lia|]. by repeat constructor.
  - eexists. split; [by apply Hend|]. simpl. split; [lia|]. by repeat constructor.
Qed.

End NoLinks.

Lemma depth_extract_of_nothing `{SetOrder} :
  Extract.depth_extract_guardian_links EmptyString = [].
Proof.
  unfold Extract.depth_extract_guardian_links.
  replace (Extract.depth_matches EmptyString) with (@nil string) by reflexivity.
  apply unique_articles_nil.
Qed.

Lemma recursive_extract_of_nothing `{SetOrder} (base_url : string) :
  Extract.recursive_extract_guardian_links EmptyString base_url = [].
Proof.
  unfold Extract.recursive_extract_guardian_links.
  replace (Extract.recursive_matches EmptyString) with (@nil string) by reflexivity.
  by rewrite unique_articles_nil.
Qed.

Lemma scrapy_backend_markdown {W : Type}
    (world : W -> string -> W * (Scrapy.subprocess_run * Q * Q)) (w w' : W)
    (url : string) (markdown : option string) (elapsed : Q) :
  @backend_crawl W (Scrapy.backend world) w url = (w', Fetched markdown elapsed) ->
  markdown = None.
Proof.
  unfold backend_crawl, Scrapy.backend.
  destruct (world w url) as [w1 [[run execution_time] elapsed1]].
  unfold Scrapy.crawl.
  destruct (Scrapy.run_scrapy_subprocess run) as [message|[|item rest]]; try done.
  simpl. by intros [= _ <- _].
Qed.

(** X14. Over the Scrapy backend both crawlers stop after the seed,
    whatever the pages link to: the backend never returns markdown, so no
    link is extracted. The depth-limited crawler reports at most one page,
    the seed at depth 0, under the title ["Unknown"] and with content length
    0 when it was fetched, and reaches depth 0; the recursive crawler has at
    most one page result, for the seed. *)
Theorem scrapy_crawlers_stop_at_the_seed {W : Type} `{SetOrder}
    (world : W -> string -> W * (Scrapy.subprocess_run * Q * Q))
    (cfg : Depth.config) (rcfg : Recursive.config) (w : W) (start_url : string) :
  (exists (s : Depth.summary) (st : Depth.state W),
      @Depth.crawl_depth_limited W (Scrapy.backend world)
        Extract.depth_extract_guardian_links cfg w start_url = Some (s, st)
      /\ Depth.total_pages s <= 1
      /\ Depth.max_depth_reached s = 0
      /\ Forall (fun r => r_url r = start_url /\ r_depth r = 0
                          /\ (r_success r = true ->
                              r_title r = "Unknown" /\ r_content_length r = 0))
           (Depth.summary_results s))
  /\ (exists st : Recursive.state W,
        @Recursive.crawl_recursive W (Scrapy.backend world)
          Extract.recursive_extract_guardian_links rcfg w start_url = Some st
        /\ (length (Recursive.crawl_results st) <= 1)%nat
        /\ Forall (fun r => Recursive.r_url r = start_url) (Recursive.crawl_results st)).
Proof.
  split.
  - destruct (@depth_run_without_links W (Scrapy.backend world)
                Extract.depth_extract_guardian_links cfg w start_url)
      as (st & Hrun & Hresults & Hkey).
    { intros w' markdown elapsed Hfetch.
      rewrite (scrapy_backend_markdown world w w' start_url markdown elapsed Hfetch).
      apply depth_extract_of_nothing. }
    unfold Depth.crawl_depth_limited. rewrite Hrun.
    exists (Depth.summarize st), st. split; [done|]. simpl.
    destruct Hresults as [-> | ->]; simpl.
    + split; [lia|]. split; [done|]. constructor.
    + split; [lia|]. split; [done|]. constructor; [|constructor].
      destruct (@backend_crawl W (Scrapy.backend world) w start_url)
        as [w' [markdown elapsed|message]] eqn:Hfetch; simpl.
      * rewrite (scrapy_backend_markdown world w w' start_url markdown elapsed Hfetch).
        by repeat split.
      * by repeat split.
  - apply (@recursive_run_without_links W (Scrapy.backend world)).
    intros w' markdown elapsed Hfetch.
    rewrite (scrapy_backend_markdown world w w' start_url markdown elapsed Hfetch).
    apply recursive_extract_of_nothing.
Qed.

(** ** Witnesses on concrete webs *)

(** [rerun_from_crawled_seed] on the crawler that has run on the web
    where b and c link to each other: a second run from the front page
    fetches nothing, and its summary still counts the two pages of depth 1
    and reaches depth 2. *)
Lemma rerun_on_mutual_web :
  home ∈ Depth.crawled_urls after_mutual_run
  /\ exists st' : Depth.state (string -> fetch_outcome),
       @Depth.run _ table_backend guardian_links (Depth.Config 2 5) after_mutual_run home
       = Some st'
       /\ Depth.trace st' = []
       /\ Depth.total_pages (Depth.summarize st') = 0
       /\ Depth.depth_breakdown (Depth.summarize st') !! 1 = Some 2
       /\ Depth.max_depth_reached (Depth.summarize st') = 2.
Proof.
  assert (Hseed : home ∈ Depth.crawled_urls after_mutual_run).
  { apply (bool_decide_unpack _). vm_compute. exact I. }
  split; [exact Hseed|].
  destruct (@rerun_from_crawled_seed _ table_backend guardian_links (Depth.Config 2 5)
              after_mutual_run home Hseed)
    as (st' & Hrun & Htrace & _ & _ & Hpages & _ & _ & Hcounts & Hmax).
  - simpl. lia.
  - exists st'. split; [exact Hrun|]. split; [exact Htrace|]. split; [exact Hpages|].
    split.
    + rewrite Hcounts by done. vm_compute. reflexivity.
    + rewrite Hmax. vm_compute. reflexivity.
Defined.

(** ** The titles and the page results of the two crawlers *)

Lemma find_first {A : Type} (f : A -> bool) (l : list A) :
  match List.find f l with
  | Some x => exists before after,
                l = before ++ x :: after
                /\ Forall (fun y => f y = false) before /\ f x = true
  | None => Forall (fun y => f y = false) l
  end.
Proof.
  induction l as [|a l IH]; simpl; [constructor|].
  destruct (f a) eqn:Ha.
  - by exists [], l.
  - destruct (List.find f l) as [x|].
    + destruct IH as (before & after & -> & Hbefore & Hx).
      exists (a :: before), after. split; [done|]. split; [by constructor|done].
    + by constructor.
Qed.

Lemma first_heading_unique {A : Type} (f : A -> bool) (b1 b2 a1 a2 : list A) (x y : A) :
  b1 ++ x :: a1 = b2 ++ y :: a2 ->
  Forall (fun z => f z = false) b1 -> f x = true ->
  Forall (fun z => f z = false) b2 -> f y = true ->
  x = y.
Proof.
  revert b2. induction b1 as [|z b1 IH]; intros [|z2 b2]; simpl;
    intros Heq Hb1 Hx Hb2 Hy.
  - by injection Heq.
  - injection Heq as -> _. inversion Hb2; congruence.
  - injection Heq as -> _. inversion Hb1; congruence.
  - injection Heq as _ Heq. inversion Hb1; inversion Hb2; subst. by eapply IH.
Qed.

Lemma extract_title_bounds (cut : nat) (markdown : option string) :
  (7 <= cut)%nat ->
  (String.length (extract_title cut markdown) <= cut)%nat
  /\ (forall c, first_char (extract_title cut markdown) = Some c -> Py.isspace c = false).
Proof.
  intros Hcut. unfold extract_title.
  assert (Hunknown : (String.length "Unknown" <= cut)%nat
                     /\ (forall c, first_char "Unknown" = Some c -> Py.isspace c = false)).
  { split; [simpl; lia|]. by intros c [= <-]. }
  destruct markdown as [[|c0 md]|]; try exact Hunknown.
  destruct (List.find _ _) as [line|]; [|exact Hunknown].
  split; [apply take_length|].
  destruct cut as [|cut]; [lia|]. intros c. rewrite take_first_char. intros Hc.
  apply (strip_with_ends Py.isspace (Py.drop 2 line)). by left.
Qed.



Section Shapes.
Context {B : Type} `{CrawlBackend B}.



End Shapes.

(** X15. The title of a fetched page, in both crawlers: ["Unknown"]
    when the markdown is missing or empty or has no line that starts with
    ["# "]; otherwise what follows ["# "] on the first such line, stripped
    and then cut to [cut] characters (80 and 100 in the two crawlers). So it
    has at most [cut] characters, for [cut >= 7], and does not start with
    white space. *)
Theorem title_is_first_heading (cut : nat) (markdown : option string) :
  let lines := Py.split newline (markdown_or_empty markdown) in
  let title := extract_title cut markdown in
  (Forall (fun line => Py.startswith "# " line = false) lines -> title = "Unknown")
  /\ (forall before line after,
        lines = before ++ line :: after ->
        Forall (fun line => Py.startswith "# " line = false) before ->
        Py.startswith "# " line = true ->
        title = Py.take cut (Py.strip (Py.drop 2 line)))
  /\ ((7 <= cut)%nat -> (String.length title <= cut)%nat)
  /\ (forall c, first_char title = Some c -> Py.isspace c = false).
Proof.
  intros lines title. split; [|split; [|split]].
  - intros Hnone. unfold title, extract_title.
    destruct markdown as [[|c md]|]; try done.
    pose proof (find_first (Py.startswith "# ") (Py.split newline (String c md)))
      as Hfind.
    destruct (List.find _ _) as [line|]; [|done].
    destruct Hfind as (before & after & Hlines & _ & Hline).
    unfold lines in Hnone. simpl markdown_or_empty in Hnone. rewrite Hlines in Hnone.
    apply Forall_app in Hnone as [_ Hnone]. inversion Hnone; congruence.
  - intros before line after Hlines Hbefore Hline. unfold title, extract_title.
    destruct markdown as [[|c md]|].
    + destruct before as [|? [|? ?]]; simpl in Hlines; try done.
      injection Hlines as <- _. done.
    + pose proof (find_first (Py.startswith "# ") (Py.split newline (String c md)))
        as Hfind.
      unfold lines in Hlines. simpl markdown_or_empty in Hlines.
      destruct (List.find _ _) as [line'|].
      * destruct Hfind as (before' & after' & Hlines' & Hbefore' & Hline').
        rewrite Hlines in Hlines'.
        by rewrite (first_heading_unique _ _ _ _ _ _ _ Hlines' Hbefore Hline
                      Hbefore' Hline').
      * rewrite Hlines in Hfind. apply Forall_app in Hfind as [_ Hfind].
        inversion Hfind; congruence.
    + destruct before as [|? [|? ?]]; simpl in Hlines; try done.
      injection Hlines as <- _. done.
  - intros Hcut. by apply extract_title_bounds.
  - intros c. unfold title, extract_title.
    assert (Hunknown : first_char "Unknown" = Some c -> Py.isspace c = false)
      by (by intros [= <-]).
    destruct markdown as [[|c0 md]|]; try exact Hunknown.
    destruct (List.find _ _) as [line|]; [|exact Hunknown].
    destruct cut as [|cut]; [done|]. rewrite take_first_char. intros Hc.
    apply (strip_with_ends Py.isspace (Py.drop 2 line)). by left.
Qed.

(** *** Each result records its own outcome *)

Section FetchAll.
Context {B : Type} `{CrawlBackend B}.


End FetchAll.

Section Records.
Context {B : Type} `{CrawlBackend B}.






End Records.


(** ** [test_recursive_links] *)

Lemma contains_app (sub before after : string) :
  GuardianTest.contains sub (before +:+ sub +:+ after) = true.
Proof.
  induction before as [|c before IH]; simpl.
  - destruct (sub +:+ after) eqn:Happ; simpl; rewrite <- ?Happ, startswith_app; done.
  - rewrite IH. apply orb_true_r.
Qed.

Lemma guardian_mdlink_host (s text url : string) (n : nat) :
  GuardianTest.match_mdlink s = Some ((text, url), n) ->
  GuardianTest.contains "theguardian.com" url = true.
Proof.
  unfold GuardianTest.match_mdlink. intros Hm.
  repeat (match type of Hm with
          | context [match ?e with _ => _ end] => destruct e; try discriminate
          end).
  injection Hm as _ <- _.
  apply (contains_app "theguardian.com" "https://www.").
Qed.

Lemma links_of_item_host (item : string * py_value) (link : string) :
  link ∈ GuardianTest.links_of_item item ->
  GuardianTest.contains "theguardian.com" link = true.
Proof.
  unfold GuardianTest.links_of_item.
  destruct (GuardianTest.names_links item.1); [|by intros ?%elem_of_nil].
  destruct item.2 as [value|values].
  - destruct (GuardianTest.contains "theguardian.com" value) eqn:Hvalue;
      [|by intros ?%elem_of_nil].
    by intros ->%list_elem_of_singleton.
  - intros Hin. by apply list_elem_of_In, filter_In in Hin as [_ Hin].
Qed.

Lemma links_of_host (result : crawl_result) (link : string) :
  link ∈ GuardianTest.links_of result ->
  GuardianTest.contains "theguardian.com" link = true.
Proof.
  unfold GuardianTest.links_of. intros Hin. apply elem_of_app in Hin as [Hin|Hin].
  - destruct (cr_structured_data result) as [d|]; [|by apply elem_of_nil in Hin].
    apply list_elem_of_In, in_flat_map in Hin as (item & _ & Hin).
    by apply (links_of_item_host item), list_elem_of_In.
  - destruct (cr_markdown result) as [markdown|]; [|by apply elem_of_nil in Hin].
    apply list_elem_of_fmap in Hin as ([text url] & -> & Hin).
    apply findall_from_elem in Hin as (s & n & Hm). by eapply guardian_mdlink_host.
Qed.

Lemma set_iter_length `{SetOrder} (l : list string) :
  length (set_iter l) = length (remove_dups l).
Proof.
  apply Permutation_length, NoDup_Permutation.
  - apply set_iter_NoDup.
  - apply NoDup_remove_dups.
  - intros x. by rewrite set_iter_elem, elem_of_remove_dups.
Qed.

Lemma set_iter_length_le `{SetOrder} (l : list string) :
  (length (set_iter l) <= length l)%nat.
Proof.
  apply submseteq_length, NoDup_submseteq; [apply set_iter_NoDup|].
  intros x. by rewrite set_iter_elem.
Qed.

(** X17. [test_recursive_links] reports a failure, with the message
    and no link, exactly when the backend raised. Otherwise [found_links]
    is the number of distinct links collected, [sample_links] holds five of
    them, or all when they are fewer, without repetition, and every link
    reported contains ["theguardian.com"]: it is a string under a key of
    [structured_data] whose name contains ["link"] or ["url"], or the target
    of a markdown link to [https://www.theguardian.com]. *)
Theorem link_test_report `{SetOrder} (outcome : string + crawl_result) :
  let report := GuardianTest.test_recursive_links outcome in
  (forall message, outcome = inl message ->
     report = GuardianTest.Report 0 [] false (Some message))
  /\ (forall result, outcome = inr result ->
        GuardianTest.success report = true
        /\ GuardianTest.error report = None
        /\ GuardianTest.found_links report
           = Z.of_nat (length (remove_dups (GuardianTest.links_of result)))
        /\ Z.of_nat (length (GuardianTest.sample_links report))
           = Z.min 5 (GuardianTest.found_links report)
        /\ NoDup (GuardianTest.sample_links report)
        /\ (forall link, link ∈ GuardianTest.sample_links report ->
              link ∈ GuardianTest.links_of result
              /\ GuardianTest.contains "theguardian.com" link = true)
        /\ ((GuardianTest.found_links report <= 5) ->
            forall link, link ∈ GuardianTest.links_of result ->
                         link ∈ GuardianTest.sample_links report)).
Proof.
  intros report. split; [by intros message ->|].
  intros result ->. unfold report. simpl.
  destruct (firstn_NoDup_elem 5 (set_iter (GuardianTest.links_of result))
              (set_iter_NoDup _)) as (Hnodup & Helem & _).
  split; [done|]. split; [done|]. split; [by rewrite set_iter_length|].
  split; [rewrite length_take; lia|]. split; [exact Hnodup|]. split.
  - intros link Hin. apply Helem in Hin. apply (proj1 (set_iter_elem _ _)) in Hin.
    split; [exact Hin|by apply (links_of_host result)].
  - intros Hfew link Hin. rewrite firstn_all2 by lia. by apply set_iter_elem.
Qed.

(** X18. [test_recursive_links] on the two backends. On a result of
    [BrowserUseBackend._process_agent_result] for the format ["structured"]
    it finds no link, whatever the agent returned: no key of the structured
    data names links, and there is no markdown. On [ScrapyBackend.crawl] it
    finds at most five links, all among the first five links of the page
    that contain ["theguardian.com"], so that a relative link is never
    found; it reports a failure exactly when the backend raised. *)
Theorem link_test_on_backends `{SetOrder} (url : string) (agent_result : option string)
    (run : Scrapy.subprocess_run) (execution_time : Q) :
  GuardianTest.test_recursive_links
    (inr (BrowserUse.process_agent_result url "structured" agent_result execution_time))
  = GuardianTest.Report 0 [] true None
  /\ (let report := GuardianTest.test_recursive_links
                      (Scrapy.crawl url "structured" run execution_time) in
      GuardianTest.found_links report <= 5
      /\ (length (GuardianTest.sample_links report)
          = Z.to_nat (GuardianTest.found_links report))
      /\ (GuardianTest.success report = false
          <-> exists message,
                Scrapy.crawl url "structured" run execution_time = inl message)
      /\ (forall item rest stderr,
            run = Scrapy.Completed (Some (item :: rest)) stderr ->
            GuardianTest.found_links report
            = Z.of_nat (length (remove_dups
                                  (List.filter (GuardianTest.contains "theguardian.com")
                                     (firstn 5 (Scrapy.i_links item)))))
            /\ forall link,
                 link ∈ GuardianTest.sample_links report
                 <-> link ∈ firstn 5 (Scrapy.i_links item)
                     /\ GuardianTest.contains "theguardian.com" link = true)).
Proof.
  split.
  - assert (Hlinks : GuardianTest.links_of
                       (BrowserUse.process_agent_result url "structured" agent_result
                          execution_time) = []) by reflexivity.
    assert (Hnil : set_iter [] = []).
    { destruct (set_iter []) as [|x l] eqn:Hiter; [done|].
      assert (Hx : x ∈ set_iter []) by (rewrite Hiter; apply elem_of_cons; by left).
      apply (proj1 (set_iter_elem _ _)) in Hx. by apply elem_of_nil in Hx. }
    unfold GuardianTest.test_recursive_links. by rewrite Hlinks, Hnil.
  - intros report. unfold report, Scrapy.crawl.
    destruct (Scrapy.run_scrapy_subprocess run) as [message|[|item rest]] eqn:Hrun.
    + simpl. split; [lia|]. split; [done|]. split; [split; [by eexists|done]|].
      intros item rest stderr ->. done.
    + simpl. split; [lia|]. split; [done|]. split; [split; [by eexists|done]|].
      intros item rest stderr ->. done.
    + cbn [GuardianTest.test_recursive_links]. cbv zeta.
      match goal with
      | |- context [GuardianTest.links_of ?r] =>
          assert (Hlinks : GuardianTest.links_of r
                           = (List.filter (GuardianTest.contains "theguardian.com")
                                (firstn 5 (Scrapy.i_links item)) ++ []) ++ [])
            by reflexivity
      end.
      rewrite !app_nil_r in Hlinks. rewrite Hlinks.
      set (links := List.filter _ _).
      assert (Hfive : (length (set_iter links) <= 5)%nat).
      { etransitivity; [apply set_iter_length_le|]. unfold links.
        etransitivity; [apply filter_length_le|]. rewrite length_take. lia. }
      cbn [GuardianTest.found_links GuardianTest.sample_links GuardianTest.success].
      split; [lia|]. split; [rewrite firstn_all2 by lia; lia|].
      split; [split; [done|by intros [? ?]]|].
      intros item' rest' stderr ->. injection Hrun as <- <-.
      split; [by rewrite set_iter_length|].
      intros link. rewrite firstn_all2 by lia. rewrite set_iter_elem. unfold links.
      by rewrite list_elem_of_In, filter_In, <- list_elem_of_In.
Qed.
